(** * Microplastic screening UI: detection-result normalisation,
      box parsing, size classification and the history store

    Shallow embedding of the React component [CameraUI].  Both variants
    of the component share [parseBbox] and the normalisation step of
    [sendToBackend]; the variant with size classification adds
    [getSizeCategoryColor] and the history store.

    Modelling conventions:
    - JavaScript numbers are IEEE-754 binary64 values and are modelled by
      Rocq's primitive floats, so [0.7 <? c] below is exactly the
      comparison [c > 0.7] of the source;
    - untyped data (the response body, the argument of [parseBbox]) is a
      [JS.value]; an evaluation that can throw returns a
      [JS.completion];
    - strings are kept as their UTF-8 bytes;
    - the [useState] cells and the [localStorage] slot form a record
      [State]; an event handler is a function on it, and a [setHistory]
      is followed by the effect that persists the history;
    - readings of the clock ([Date.now()], [new Date()]) are arguments. *)

From Stdlib Require Import Bool Ascii String List ZArith Lia DecimalString.
From Stdlib Require Import Floats.PrimFloat Floats.SpecFloat Floats.FloatOps.
From Stdlib Require Import Floats.FloatAxioms.
Import ListNotations.

Local Open Scope string_scope.
Local Open Scope list_scope.

Set Warnings "-register-all,-inexact-float".

(* ===================================================================== *)
(** * JavaScript values and the built-in conversions the component uses *)
(* ===================================================================== *)

Module JS.

(** Values that can reach the component: what [JSON.parse] produces
    (the response body, the persisted history), plus [undefined] and the
    non-finite numbers.  An object is given by its own properties, in
    order; its prototype is [Object.prototype]. *)
Inductive value : Type :=
| VUndef
| VNull
| VBool (b : bool)
| VNum (n : float)
| VStr (s : string)
| VArr (elems : list value)
| VObj (props : list (string * value)).

(** Completion of an evaluation: a value, or a thrown exception. *)
Inductive exn : Type :=
| TypeError.

Inductive completion (A : Type) : Type :=
| Normal (a : A)
| Throw (e : exn).
Arguments Normal {A} a.
Arguments Throw {A} e.

Definition bind {A B} (c : completion A) (k : A -> completion B) : completion B :=
  match c with
  | Normal a => k a
  | Throw e => Throw e
  end.

Declare Scope js_scope.
Delimit Scope js_scope with js.
Notation "x <- c ;; k" := (bind c (fun x => k))
  (at level 61, c at next level, right associativity) : js_scope.
Notation "'ret' a" := (Normal a) (at level 60) : js_scope.

(** [xs.map(f)] where [f] may throw: elements are visited left to right
    and the first exception aborts the whole map. *)
Fixpoint mapM {A B} (f : A -> completion B) (l : list A) : completion (list B) :=
  match l with
  | [] => Normal []
  | x :: xs =>
      match f x with
      | Throw e => Throw e
      | Normal y =>
          match mapM f xs with
          | Throw e => Throw e
          | Normal ys => Normal (y :: ys)
          end
      end
  end.

(** ** Truthiness *)

Definition isNaN (n : float) : bool := negb (n =? n)%float.

(** [ToBoolean] on numbers: [+0], [-0] and [NaN] are falsy. *)
Definition truthyNum (n : float) : bool := negb ((n =? 0)%float || isNaN n).

Definition ToBoolean (v : value) : bool :=
  match v with
  | VUndef | VNull => false
  | VBool b => b
  | VNum n => truthyNum n
  | VStr s => negb (String.eqb s "")
  | VArr _ | VObj _ => true
  end.

(** [a || b] on values. *)
Definition or (a b : value) : value := if ToBoolean a then a else b.

(** [n || 0] on a number. *)
Definition orZero (n : float) : float := if truthyNum n then n else 0%float.

Definition isArray (v : value) : bool :=
  match v with
  | VArr _ => true
  | _ => false
  end.

(** ** Property reads *)

Fixpoint lookup (k : string) (props : list (string * value)) : option value :=
  match props with
  | [] => None
  | (k', v) :: rest => if String.eqb k k' then Some v else lookup k rest
  end.

(** [v.k] for the property names the component reads from untyped data
    ([count], [detections], [confidence], [bbox], [label], the size
    fields, ...).  None of these names is defined on a built-in
    prototype, so on a primitive, an array or an object without such an
    own property the read gives [undefined]; on [null] and [undefined]
    it throws. *)
Definition get (v : value) (k : string) : completion value :=
  match v with
  | VUndef | VNull => Throw TypeError
  | VObj props =>
      match lookup k props with
      | Some x => Normal x
      | None => Normal VUndef
      end
  | _ => Normal VUndef
  end.

(** [a[i]] on an array: [undefined] out of range. *)
Definition index (elems : list value) (i : nat) : value := nth i elems VUndef.

(** ** [StringToNumber] *)

Definition code (c : ascii) : N := N_of_ascii c.

Definition isDigit (c : ascii) : bool := (48 <=? code c)%N && (code c <=? 57)%N.

Definition digitVal (c : ascii) : Z := (Z.of_N (code c) - 48)%Z.

(** Value of a hexadecimal digit, if [c] is one. *)
Definition hexVal (c : ascii) : option Z :=
  let n := code c in
  if (48 <=? n)%N && (n <=? 57)%N then Some (Z.of_N n - 48)%Z
  else if (65 <=? n)%N && (n <=? 70)%N then Some (Z.of_N n - 55)%Z
  else if (97 <=? n)%N && (n <=? 102)%N then Some (Z.of_N n - 87)%Z
  else None.

(** Strings are kept as their UTF-8 bytes.  [dropWhiteSpace] removes the
    leading [WhiteSpace] and [LineTerminator] code points: TAB, LF, VT,
    FF, CR, SP, U+00A0, U+1680, U+2000..U+200A, U+2028, U+2029, U+202F,
    U+205F, U+3000 and U+FEFF.  [fuel] bounds the number of code points
    removed. *)
Fixpoint dropWhiteSpace (fuel : nat) (bs : list N) : list N :=
  match fuel with
  | O => bs
  | S fuel' =>
      match bs with
      | 9 :: r | 10 :: r | 11 :: r | 12 :: r | 13 :: r | 32 :: r =>
          dropWhiteSpace fuel' r
      | 194 :: 160 :: r => dropWhiteSpace fuel' r
      | 225 :: 154 :: 128 :: r => dropWhiteSpace fuel' r
      | 226 :: 128 :: b :: r =>
          if ((128 <=? b) && (b <=? 138) || (b =? 168) || (b =? 169) || (b =? 175))%N
          then dropWhiteSpace fuel' r else bs
      | 226 :: 129 :: 159 :: r => dropWhiteSpace fuel' r
      | 227 :: 128 :: 128 :: r => dropWhiteSpace fuel' r
      | 239 :: 187 :: 191 :: r => dropWhiteSpace fuel' r
      | _ => bs
      end
  end%N.

(** The same on the reversed byte sequence, for trailing white space. *)
Fixpoint dropWhiteSpaceRev (fuel : nat) (bs : list N) : list N :=
  match fuel with
  | O => bs
  | S fuel' =>
      match bs with
      | 9 :: r | 10 :: r | 11 :: r | 12 :: r | 13 :: r | 32 :: r =>
          dropWhiteSpaceRev fuel' r
      | 160 :: 194 :: r => dropWhiteSpaceRev fuel' r
      | 128 :: 154 :: 225 :: r => dropWhiteSpaceRev fuel' r
      | b :: 128 :: 226 :: r =>
          if ((128 <=? b) && (b <=? 138) || (b =? 168) || (b =? 169) || (b =? 175))%N
          then dropWhiteSpaceRev fuel' r else bs
      | 159 :: 129 :: 226 :: r => dropWhiteSpaceRev fuel' r
      | 128 :: 128 :: 227 :: r => dropWhiteSpaceRev fuel' r
      | 191 :: 187 :: 239 :: r => dropWhiteSpaceRev fuel' r
      | _ => bs
      end
  end%N.

Definition trim (s : string) : list ascii :=
  let bs := map code (list_ascii_of_string s) in
  let bs := dropWhiteSpace (List.length bs) bs in
  let bs := rev (dropWhiteSpaceRev (List.length bs) (rev bs)) in
  map ascii_of_N bs.

(** Longest prefix of decimal digits, and the rest. *)
Fixpoint spanDigits (cs : list ascii) : list ascii * list ascii :=
  match cs with
  | c :: r =>
      if isDigit c then let (ds, r') := spanDigits r in (c :: ds, r')
      else ([], cs)
  | [] => ([], [])
  end.

(** Mathematical value of a digit sequence in radix 10. *)
Definition decimalValue (ds : list ascii) : Z :=
  fold_left (fun acc c => 10 * acc + digitVal c)%Z ds 0%Z.

(** Value of a digit sequence in [radix], if every character is a digit
    below [radix] and there is at least one. *)
Definition radixValue (radix : Z) (ds : list ascii) : option Z :=
  match ds with
  | [] => None
  | _ =>
      fold_left
        (fun acc c =>
           match acc, hexVal c with
           | Some a, Some d => if (d <? radix)%Z then Some (radix * a + d)%Z else None
           | _, _ => None
           end)
        ds (Some 0%Z)
  end.

(** The Number value for the positive rational [m * 10^e]: the nearest
    binary64 value, ties to even, overflowing to infinity. *)
Definition roundDecimal (m e : Z) : float :=
  match m with
  | Zpos p =>
      match e with
      | Zneg _ =>
          SF2Prim (SFdiv prec emax
                     (S754_finite false p 0)
                     (S754_finite false (Z.to_pos (10 ^ (- e))) 0))
      | _ => SF2Prim (binary_normalize prec emax (m * 10 ^ e) 0 false)
      end
  | _ => 0%float
  end.

(** [ExponentPart]: [e] or [E], an optional sign, at least one digit,
    and nothing after it. *)
Definition exponentPart (cs : list ascii) : option Z :=
  match cs with
  | [] => Some 0%Z
  | c :: r =>
      if (code c =? 101)%N || (code c =? 69)%N then
        let '(neg, r) :=
          match r with
          | s :: r' =>
              if (code s =? 45)%N then (true, r')
              else if (code s =? 43)%N then (false, r')
              else (false, r)
          | [] => (false, r)
          end in
        match spanDigits r with
        | ((_ :: _) as ds, []) =>
            Some (if neg then - decimalValue ds else decimalValue ds)%Z
        | _ => None
        end
      else None
  end.

(** [StrUnsignedDecimalLiteral]: [Infinity], [digits . digits? exp?],
    [. digits exp?] or [digits exp?]. *)
Definition unsignedDecimal (cs : list ascii) : option float :=
  if list_eq_dec ascii_dec cs (list_ascii_of_string "Infinity") then Some infinity
  else
    let (ip, r) := spanDigits cs in
    let (fp, r) :=
      match r with
      | c :: r' => if (code c =? 46)%N then spanDigits r' else ([], r)
      | [] => ([], r)
      end in
    match ip, fp with
    | [], [] => None
    | _, _ =>
        match exponentPart r with
        | Some ex =>
            Some (roundDecimal (decimalValue (ip ++ fp))
                               (ex - Z.of_nat (List.length fp)))
        | None => None
        end
    end.

(** [StringToNumber]: white space is trimmed; the empty string is [+0];
    a signed decimal literal or an unsigned binary, octal or hexadecimal
    integer literal has its value; anything else is [NaN]. *)
Definition StringToNumber (s : string) : float :=
  match trim s with
  | [] => 0%float
  | (c :: r) as cs =>
      let nonDecimal :=
        match r with
        | x :: ds =>
            if (code c =? 48)%N then
              if (code x =? 120)%N || (code x =? 88)%N then radixValue 16 ds
              else if (code x =? 111)%N || (code x =? 79)%N then radixValue 8 ds
              else if (code x =? 98)%N || (code x =? 66)%N then radixValue 2 ds
              else None
            else None
        | [] => None
        end in
      match nonDecimal with
      | Some m => SF2Prim (binary_normalize prec emax m 0 false)
      | None =>
          let signed :=
            if (code c =? 45)%N then option_map PrimFloat.opp (unsignedDecimal r)
            else if (code c =? 43)%N then unsignedDecimal r
            else unsignedDecimal cs in
          match signed with
          | Some n => n
          | None => nan
          end
      end
  end.

(** ** [Number(v)] *)

(** Converting an object to a primitive calls its [toString] and
    [valueOf].  A parsed object inherits both; an own property named
    [toString] (never callable in parsed data) hides the inherited
    method, the inherited [valueOf] returns the object itself, and the
    conversion throws a [TypeError].  Arrays convert through [join],
    which converts every element other than [null] and [undefined]. *)
Fixpoint hidesToString (v : value) : bool :=
  match v with
  | VObj props =>
      match lookup "toString" props with
      | Some _ => true
      | None => false
      end
  | VArr elems => existsb hidesToString elems
  | _ => false
  end.

(** Numeric value of [v] when the conversion does not throw.  An array
    converts through its string: the empty array and [[null]] give the
    empty string, hence [0]; a one-element array converts as its element
    does as a string (a number survives the round trip through its
    decimal representation, except that [-0] prints as [0]); two or more
    elements give a string with a comma, hence [NaN]. *)
Fixpoint numeric (v : value) : float :=
  match v with
  | VUndef => nan
  | VNull => 0%float
  | VBool b => if b then 1%float else 0%float
  | VNum n => n
  | VStr s => StringToNumber s
  | VArr [] => 0%float
  | VArr [x] =>
      match x with
      | VUndef | VNull => 0%float
      | VBool _ => nan
      | VNum n => if (n =? 0)%float then 0%float else n
      | VStr s => StringToNumber s
      | VArr _ => numeric x
      | VObj _ => nan
      end
  | VArr _ => nan
  | VObj _ => nan
  end.

Definition Number (v : value) : completion float :=
  if hidesToString v then Throw TypeError else Normal (numeric v).

End JS.

Import JS.
Local Open Scope js_scope.

(* ===================================================================== *)
(** * Geometry: [parseBbox] *)
(* ===================================================================== *)

(** Elements of an array value ([bbox.length] and [bbox[i]] are only
    evaluated after [Array.isArray(bbox)] has succeeded). *)
Definition elements (v : value) : list value :=
  match v with
  | VArr elems => elems
  | _ => []
  end.

Definition Box : Type := float * float * float * float.

Definition zeroBox : Box := (0, 0, 0, 0)%float.

(** The guard [!bbox || !Array.isArray(bbox) || bbox.length < 4]. *)
Definition malformedBbox (bbox : value) : bool :=
  negb (ToBoolean bbox) || negb (isArray bbox)
  || (List.length (elements bbox) <? 4)%nat.

Definition parseBbox (bbox : value) : completion Box :=
  if malformedBbox bbox then ret zeroBox
  else
    x <- Number (index (elements bbox) 0) ;;
    y <- Number (index (elements bbox) 1) ;;
    w <- Number (index (elements bbox) 2) ;;
    h <- Number (index (elements bbox) 3) ;;
    ret (orZero x, orZero y, orZero w, orZero h).

(** The four components are finite numbers. *)
Definition finiteBox (b : Box) : bool :=
  let '(x, y, w, h) := b in
  is_finite x && is_finite y && is_finite w && is_finite h.

(** None of the four components is [NaN]. *)
Definition numberBox (b : Box) : bool :=
  let '(x, y, w, h) := b in
  negb (isNaN x) && negb (isNaN y) && negb (isNaN w) && negb (isNaN h).

(** Component [i] of a box. *)
Definition component (b : Box) (i : nat) : float :=
  let '(x, y, w, h) := b in
  match i with
  | 0 => x
  | 1 => y
  | 2 => w
  | _ => h
  end%nat.

(* ===================================================================== *)
(** * Size classification: [getSizeCategoryColor] *)
(* ===================================================================== *)

(** [interface Detection]; the fields [width_µm], [height_µm] and
    [diagonal_µm] are spelled [_um] here. *)
Record Detection : Type := {
  confidence : float;
  bbox : list float;
  label : string;
  width_px : option float;
  height_px : option float;
  width_um : option float;
  height_um : option float;
  diagonal_um : option float;
  size_category : option string
}.

(** [s.toLowerCase()].  Only the letters [A]..[Z] are mapped; the bytes
    of other code points are kept.  The only code point outside ASCII
    whose lower case is an ASCII letter is U+212A (to [k]), so the
    comparison with ['microplastic'] below is the source's. *)
Definition lowerChar (c : ascii) : ascii :=
  if (65 <=? code c)%N && (code c <=? 90)%N then ascii_of_N (code c + 32) else c.

Fixpoint toLowerCase (s : string) : string :=
  match s with
  | EmptyString => EmptyString
  | String c r => String (lowerChar c) (toLowerCase r)
  end.

(** Own properties of the object literal [sizeCategoryColors]. *)
Definition sizeCategoryColors : list (string * string) :=
  [ ("nanoplastic", "border-red-500 bg-red-500/10 text-red-400");
    ("small", "border-yellow-500 bg-yellow-500/10 text-yellow-400");
    ("medium", "border-blue-500 bg-blue-500/10 text-blue-400");
    ("large", "border-purple-500 bg-purple-500/10 text-purple-400") ].

(** Properties every object literal inherits from [Object.prototype]. *)
Definition objectPrototype : list string :=
  [ "constructor"; "hasOwnProperty"; "isPrototypeOf"; "propertyIsEnumerable";
    "toLocaleString"; "toString"; "valueOf"; "__proto__";
    "__defineGetter__"; "__defineSetter__"; "__lookupGetter__";
    "__lookupSetter__" ].

(** What a read [sizeCategoryColors[k]] can produce besides [undefined]:
    one of the class strings, or a member of [Object.prototype] (a
    function; for [__proto__] the prototype object), found because
    property reads follow the prototype chain. *)
Inductive treatment : Type :=
| Classes (classes : string)
| PrototypeMember (name : string).

Fixpoint ownProperty (k : string) (props : list (string * string)) : option string :=
  match props with
  | [] => None
  | (k', v) :: rest => if String.eqb k k' then Some v else ownProperty k rest
  end.

(** [sizeCategoryColors[k]]; [None] is [undefined]. *)
Definition sizeCategoryColorsAt (k : string) : option treatment :=
  match ownProperty k sizeCategoryColors with
  | Some classes => Some (Classes classes)
  | None =>
      if existsb (String.eqb k) objectPrototype then Some (PrototypeMember k)
      else None
  end.

Definition truthyTreatment (t : treatment) : bool :=
  match t with
  | Classes classes => negb (String.eqb classes "")
  | PrototypeMember _ => true
  end.

Definition grayClasses : string := "border-gray-500 bg-gray-500/10 text-gray-400".
Definition highClasses : string := "border-green-500 bg-green-500/10 text-green-400".
Definition mediumBandClasses : string := "border-yellow-500 bg-yellow-500/10 text-yellow-400".
Definition lowClasses : string := "border-red-500 bg-red-500/10 text-red-400".

(** The condition [detection.size_category &&
    detection.label.toLowerCase() === 'microplastic']. *)
Definition categoryPolicy (detection : Detection) : bool :=
  match size_category detection with
  | Some c => negb (String.eqb c "")
              && String.eqb (toLowerCase (label detection)) "microplastic"
  | None => false
  end.

(** The confidence fallback; [confidence] is a number, on which
    [Number] is the identity. *)
Definition confidenceBand (c : float) : string :=
  let confidence := orZero c in
  if (0.7 <? confidence)%float then highClasses
  else if (0.4 <? confidence)%float then mediumBandClasses
  else lowClasses.

Definition getSizeCategoryColor (detection : Detection) : treatment :=
  match size_category detection with
  | Some c =>
      if negb (String.eqb c "")
         && String.eqb (toLowerCase (label detection)) "microplastic"
      then
        match sizeCategoryColorsAt c with
        | Some t => if truthyTreatment t then t else Classes grayClasses
        | None => Classes grayClasses
        end
      else Classes (confidenceBand (confidence detection))
  | None => Classes (confidenceBand (confidence detection))
  end.

(** The four fixed size-category treatments and the three confidence
    bands. *)
Definition sizeTreatments : list treatment :=
  map (fun p => Classes (snd p)) sizeCategoryColors.

Definition bandTreatments : list treatment :=
  [Classes highClasses; Classes mediumBandClasses; Classes lowClasses].

(** A detection with the given confidence, label and size category and
    no measurements. *)
Definition detection (c : float) (l : string) (sc : option string) : Detection :=
  {| confidence := c; bbox := [0; 0; 0; 0]%float; label := l;
     width_px := None; height_px := None; width_um := None;
     height_um := None; diagonal_um := None; size_category := sc |}.

Definition withConfidence (c : float) (d : Detection) : Detection :=
  {| confidence := c; bbox := bbox d; label := label d;
     width_px := width_px d; height_px := height_px d;
     width_um := width_um d; height_um := height_um d;
     diagonal_um := diagonal_um d; size_category := size_category d |}.

(* ===================================================================== *)
(** * Result normalisation: the object built in [sendToBackend] *)
(* ===================================================================== *)

(** [v ? Number(v) : undefined]. *)
Definition optionalNumber (v : value) : completion value :=
  if ToBoolean v then n <- Number v ;; ret (VNum n) else ret VUndef.

(** [Array.isArray(b) ? b.map(Number) : [0, 0, 0, 0]]. *)
Definition numberArray (b : value) : completion value :=
  if isArray b then ns <- mapM Number (elements b) ;; ret (VArr (map VNum ns))
  else ret (VArr [VNum 0; VNum 0; VNum 0; VNum 0]).

Definition zeroSizeCounts : value :=
  VObj [ ("nanoplastic", VNum 0); ("small", VNum 0);
         ("medium", VNum 0); ("large", VNum 0) ].

(** The callback of [res.data.detections.map] in the component with
    size classification. *)
Definition processDetection (d : value) : completion value :=
  confidence <- get d "confidence" ;;
  confidence <- Number confidence ;;
  bbox <- get d "bbox" ;;
  bbox <- numberArray bbox ;;
  label <- get d "label" ;;
  width_px <- get d "width_px" ;;
  width_px <- optionalNumber width_px ;;
  height_px <- get d "height_px" ;;
  height_px <- optionalNumber height_px ;;
  width_um <- get d "width_µm" ;;
  width_um <- optionalNumber width_um ;;
  height_um <- get d "height_µm" ;;
  height_um <- optionalNumber height_um ;;
  diagonal_um <- get d "diagonal_µm" ;;
  diagonal_um <- optionalNumber diagonal_um ;;
  size_category <- get d "size_category" ;;
  ret (VObj [ ("confidence", VNum (orZero confidence));
              ("bbox", bbox);
              ("label", or label (VStr "Microplastic"));
              ("width_px", width_px);
              ("height_px", height_px);
              ("width_µm", width_um);
              ("height_µm", height_um);
              ("diagonal_µm", diagonal_um);
              ("size_category", or size_category VUndef) ]).

(** [processedResult] of the component with size classification;
    [timestamp] is the value of [new Date().toISOString()] at that
    moment. *)
Definition processedResult (timestamp : string) (data : value) : completion value :=
  count <- get data "count" ;;
  detections <- get data "detections" ;;
  detections <- (if isArray detections
                 then mapM processDetection (elements detections)
                 else ret []) ;;
  image_size <- get data "image_size" ;;
  size_counts <- get data "size_counts" ;;
  calibration_info <- get data "calibration_info" ;;
  ret (VObj [ ("count", or count (VNum 0));
              ("detections", VArr detections);
              ("image_size", image_size);
              ("size_counts", or size_counts zeroSizeCounts);
              ("calibration_info", calibration_info);
              ("timestamp", VStr timestamp) ]).

(** The same step in the component without size classification. *)
Definition processDetectionWithoutSize (d : value) : completion value :=
  confidence <- get d "confidence" ;;
  confidence <- Number confidence ;;
  bbox <- get d "bbox" ;;
  bbox <- numberArray bbox ;;
  label <- get d "label" ;;
  ret (VObj [ ("confidence", VNum (orZero confidence));
              ("bbox", bbox);
              ("label", or label (VStr "Microplastic")) ]).

Definition processedResultWithoutSize (data : value) : completion value :=
  count <- get data "count" ;;
  detections <- get data "detections" ;;
  detections <- (if isArray detections
                 then mapM processDetectionWithoutSize (elements detections)
                 else ret []) ;;
  ret (VObj [ ("count", or count (VNum 0));
              ("detections", VArr detections) ]).

(** The element a malformed entry degrades to. *)
Definition defaultDetection : value :=
  VObj [ ("confidence", VNum 0);
         ("bbox", VArr [VNum 0; VNum 0; VNum 0; VNum 0]);
         ("label", VStr "Microplastic");
         ("width_px", VUndef);
         ("height_px", VUndef);
         ("width_µm", VUndef);
         ("height_µm", VUndef);
         ("diagonal_µm", VUndef);
         ("size_category", VUndef) ].

(** Field [k] of a normalised object ([undefined] when absent). *)
Definition field (k : string) (v : value) : value :=
  match v with
  | VObj props =>
      match lookup k props with
      | Some x => x
      | None => VUndef
      end
  | _ => VUndef
  end.

(** The optional measurements of a normalised detection. *)
Definition measurements : list string :=
  ["width_px"; "height_px"; "width_µm"; "height_µm"; "diagonal_µm"].

(** The elements the normalisation accepts: not [null] or [undefined],
    and no field that is converted to a number hides [toString]. *)
Definition convertibleFields (d : value) : bool :=
  negb (hidesToString (field "confidence" d))
  && negb (isArray (field "bbox" d) && hidesToString (field "bbox" d))
  && forallb (fun k => negb (hidesToString (field k d))) measurements.

Definition acceptedElement (d : value) : bool :=
  match d with
  | VUndef | VNull => false
  | _ => convertibleFields d
  end.

Definition acceptedResponse (data : value) : bool :=
  match data with
  | VUndef | VNull => false
  | _ => negb (isArray (field "detections" data))
         || forallb acceptedElement (elements (field "detections" data))
  end.

(** A number that [v ? Number(v) : undefined] maps to itself. *)
Definition stableMeasurement (v : value) : bool :=
  match v with
  | VUndef => true
  | VNum n => truthyNum n
  | _ => false
  end.

Definition stableDetection (d : value) : bool :=
  forallb (fun k => stableMeasurement (field k d)) measurements.

(** No optional measurement of a normalised result is [0] or [NaN]. *)
Definition stableResult (r : value) : bool :=
  forallb stableDetection (elements (field "detections" r)).

(** [r] with its [timestamp] replaced. *)
Definition withTimestamp (timestamp : string) (r : value) : value :=
  match r with
  | VObj props =>
      VObj (map (fun p => if String.eqb (fst p) "timestamp"
                          then (fst p, VStr timestamp) else p) props)
  | _ => r
  end.

(** The count the specification asks for: the numeric coercion of the raw
    count, 0 when that is absent or not a number. *)
Definition coercedCount (data : value) : completion value :=
  count <- get data "count" ;;
  count <- Number count ;;
  ret (VNum (orZero count)).

(* ===================================================================== *)
(** * Component state and the history store *)
(* ===================================================================== *)

(** [n.toString()] and template interpolation of an integer. *)
Definition toString (n : Z) : string := NilZero.string_of_int (Z.to_int n).

Module HistoryItem.

(** [interface HistoryItem]. *)
Record t : Type := {
  id : string;
  timestamp : string;
  result : value;
  imageData : string;
  filename : string
}.

End HistoryItem.

Inductive Mode : Type :=
| camera
| gallery.

(** The [useState] cells of [CameraUI] that the modelled handlers read or
    write, and the [localStorage] slot ['microplasticsHistory'].  The slot
    is [None] when absent and otherwise holds the array whose
    serialisation was last written. *)
Record State : Type := {
  image : option string;
  result : option value;
  loading : bool;
  imageDimensions : option (float * float);
  mode : Mode;
  history : list HistoryItem.t;
  storage : option (list HistoryItem.t)
}.

Definition setImage (x : option string) (st : State) : State :=
  {| image := x; result := result st; loading := loading st;
     imageDimensions := imageDimensions st; mode := mode st;
     history := history st; storage := storage st |}.

Definition setResult (x : option value) (st : State) : State :=
  {| image := image st; result := x; loading := loading st;
     imageDimensions := imageDimensions st; mode := mode st;
     history := history st; storage := storage st |}.

Definition setLoading (x : bool) (st : State) : State :=
  {| image := image st; result := result st; loading := x;
     imageDimensions := imageDimensions st; mode := mode st;
     history := history st; storage := storage st |}.

Definition setImageDimensions (x : option (float * float)) (st : State) : State :=
  {| image := image st; result := result st; loading := loading st;
     imageDimensions := x; mode := mode st;
     history := history st; storage := storage st |}.

Definition setMode (x : Mode) (st : State) : State :=
  {| image := image st; result := result st; loading := loading st;
     imageDimensions := imageDimensions st; mode := x;
     history := history st; storage := storage st |}.

Definition setStorage (x : option (list HistoryItem.t)) (st : State) : State :=
  {| image := image st; result := result st; loading := loading st;
     imageDimensions := imageDimensions st; mode := mode st;
     history := history st; storage := x |}.

(** The effect on [[history]]:
    [if (history.length > 0) localStorage.setItem(..., JSON.stringify(history))]. *)
Definition persistHistory (st : State) : State :=
  if (0 <? List.length (history st))%nat
  then setStorage (Some (history st)) st
  else st.

Definition withHistory (h : list HistoryItem.t) (st : State) : State :=
  {| image := image st; result := result st; loading := loading st;
     imageDimensions := imageDimensions st; mode := mode st;
     history := h; storage := storage st |}.

(** [setHistory(h)] with a fresh array [h]: the state changes, the
    component renders again and the effect on [[history]] runs. *)
Definition setHistory (h : list HistoryItem.t) (st : State) : State :=
  persistHistory (withHistory h st).

(** ** History *)

(** The two clock reads of [saveToHistory]: [Date.now()] and the
    formatted [new Date().toLocaleString('en-US', ...)]. *)
Record Clock : Type := {
  now : Z;
  localeString : string
}.

Definition historyItem (clock : Clock) (r : value) (img name : string) : HistoryItem.t :=
  {| HistoryItem.id := toString (now clock);
     HistoryItem.timestamp := localeString clock;
     HistoryItem.result := r;
     HistoryItem.imageData := img;
     HistoryItem.filename := name |}.

(** [[historyItem, ...history].slice(0, 50)]. *)
Definition updatedHistory (item : HistoryItem.t) (h : list HistoryItem.t) : list HistoryItem.t :=
  firstn 50 (item :: h).

Definition saveToHistory (clock : Clock) (r : value) (img name : string)
    (st : State) : State :=
  setHistory (updatedHistory (historyItem clock r img name) (history st)) st.

Definition deleteHistoryItem (id : string) (st : State) : State :=
  setHistory
    (filter (fun item => negb (String.eqb (HistoryItem.id item) id)) (history st))
    st.

(** [confirmed] is the answer to [window.confirm]; the handler queues
    [setHistory([])] and removes the slot, then the effect runs. *)
Definition clearAllHistory (confirmed : bool) (st : State) : State :=
  if confirmed then persistHistory (setStorage None (withHistory [] st)) else st.

(** A request to save: the arguments of one [saveToHistory] call and the
    clock at that call. *)
Record SaveRequest : Type := {
  req_clock : Clock;
  req_result : value;
  req_image : string;
  req_filename : string
}.

Definition itemOf (q : SaveRequest) : HistoryItem.t :=
  historyItem (req_clock q) (req_result q) (req_image q) (req_filename q).

(** Appending in sequence: each call runs in the render that follows the
    previous one. *)
Definition saveAll (reqs : list SaveRequest) (st : State) : State :=
  fold_left
    (fun st q => saveToHistory (req_clock q) (req_result q) (req_image q)
                               (req_filename q) st)
    reqs st.

(** Number of entries whose identifier is [id]. *)
Definition occurrences (id : string) (h : list HistoryItem.t) : nat :=
  List.length (filter (fun item => String.eqb (HistoryItem.id item) id) h).

(** ** The detection request *)

Inductive response : Type :=
| Rejected
| Resolved (data : value).

(** What a finished request leaves besides the state: the alerts shown
    and, on success, the deferred history save ([setTimeout], 500 ms) with
    the result and the image of the render that started the request. *)
Record Outcome : Type := {
  state : State;
  alerts : list string;
  deferredSave : option (value * option string)
}.

(** [sendToBackend] up to the [await]. *)
Definition sendToBackendStart (st : State) : State :=
  setImageDimensions None (setResult None (setLoading true st)).

(** [sendToBackend] from the [await] on; [iso] is
    [new Date().toISOString()] when the response is processed, and
    [closureImage] is [image] as the running closure sees it. *)
Definition sendToBackendSettle (closureImage : option string) (resp : response)
    (iso : string) (st : State) : Outcome :=
  let failed :=
    {| state := setLoading false st;
       alerts := ["Detection failed. Please try again."];
       deferredSave := None |} in
  match resp with
  | Rejected => failed
  | Resolved data =>
      match processedResult iso data with
      | Throw _ => failed
      | Normal r =>
          {| state := setLoading false (setResult (Some r) st);
             alerts := [];
             deferredSave := Some (r, closureImage) |}
      end
  end.

Definition sendToBackend (resp : response) (iso : string) (st : State) : Outcome :=
  sendToBackendSettle (image st) resp iso (sendToBackendStart st).

(** [saveCurrentResult]; [ms] is [Date.now()] for the file name. *)
Definition saveCurrentResult (ms : Z) (clock : Clock) (st : State) : State * list string :=
  match result st, image st with
  | Some r, Some img =>
      if negb (String.eqb img "")
      then (saveToHistory clock r img ("microplastics_" ++ toString ms) st,
            ["Result saved to history!"])
      else (st, ["No result to save!"])
  | _, _ => (st, ["No result to save!"])
  end.

(** [handleUpload] up to the request: [setImage(imageUrl);
    setMode("gallery")], then [sendToBackend]. *)
Definition handleUpload (imageUrl : string) (resp : response) (iso : string)
    (st : State) : Outcome :=
  sendToBackendSettle (image st) resp iso
    (sendToBackendStart (setMode gallery (setImage (Some imageUrl) st))).

(* ===================================================================== *)
(** * Sample inputs *)
(* ===================================================================== *)

Definition initialState : State :=
  {| image := None; result := None; loading := false;
     imageDimensions := None; mode := camera; history := []; storage := None |}.

Definition sampleResult : value :=
  VObj [ ("count", VNum 0); ("detections", VArr []) ].

Definition sampleClock (n : Z) : Clock :=
  {| now := n; localeString := "Jan 1, 2025, 10:00:00 AM" |}.

Definition sampleRequest (n : nat) : SaveRequest :=
  {| req_clock := sampleClock (1735725600000 + Z.of_nat n);
     req_result := sampleResult;
     req_image := "data:image/jpeg;base64,AAAA";
     req_filename := "microplastics_" ++ toString (1735725600000 + Z.of_nat n) |}.

Definition sampleRequests : list SaveRequest := map sampleRequest (seq 0 55).

Definition oneItemState : State :=
  saveToHistory (sampleClock 1735725600000) sampleResult
                "data:image/jpeg;base64,AAAA" "microplastics_1735725600000"
                initialState.

Definition twoItemState : State := saveAll (firstn 2 sampleRequests) initialState.

(** A state in which a result is on display. *)
Definition displayedState : State :=
  setResult (Some sampleResult)
    (setMode gallery (setImage (Some "blob:sample") initialState)).

Definition sampleResponse : value :=
  VObj [ ("count", VNum 1);
         ("detections",
          VArr [ VObj [ ("confidence", VStr "0.9");
                        ("bbox", VArr [VStr "10"; VNum 20; VNum 30; VNum 40]);
                        ("label", VStr "");
                        ("width_px", VNum 12.5);
                        ("size_category", VStr "small") ] ]) ].

(** A response whose second detection is [null]. *)
Definition nullElementResponse : value :=
  VObj [ ("count", VNum 2);
         ("detections",
          VArr [ VObj [ ("confidence", VNum 0.9);
                        ("bbox", VArr [VNum 10; VNum 20; VNum 30; VNum 40]);
                        ("label", VStr "microplastic") ];
                 VNull ]) ].

Definition stringCountResponse : value :=
  VObj [ ("count", VStr "abc"); ("detections", VArr []) ].

Definition miscountResponse : value :=
  VObj [ ("count", VNum 3); ("detections", VArr []) ].

(* ===================================================================== *)
(** * Handlers, effects and views around the history and the request *)
(* ===================================================================== *)

(** ** The deferred history save *)

(** [saveToHistory] as a closure of an earlier render: [history] is the
    history of that render, whatever the current one is. *)
Definition saveToHistoryFrom (closureHistory : list HistoryItem.t) (clock : Clock)
    (r : value) (img name : string) (st : State) : State :=
  setHistory (updatedHistory (historyItem clock r img name) closureHistory) st.

(** The callback that [sendToBackend] hands to [setTimeout]:
    [if (image) saveToHistory(processedResult, image, `detection_${Date.now()}.jpg`)].
    [p] is what [deferredSave] recorded (the result and the [image] of
    the render that made the request), [closureHistory] the [history] of
    that render, [ms] the reading of [Date.now()] for the file name. *)
Definition runDeferredSave (closureHistory : list HistoryItem.t)
    (p : value * option string) (ms : Z) (clock : Clock) (st : State) : State :=
  match snd p with
  | Some img =>
      if negb (String.eqb img "")
      then saveToHistoryFrom closureHistory clock (fst p) img
             ("detection_" ++ toString ms ++ ".jpg") st
      else st
  | None => st
  end.

(** [capture]; [imageSrc] is [webcamRef.current?.getScreenshot()]. *)
Definition capture (imageSrc : option string) (resp : response) (iso : string)
    (st : State) : Outcome :=
  let nothing := {| state := st; alerts := []; deferredSave := None |} in
  match imageSrc with
  | Some src =>
      if negb (String.eqb src "")
      then sendToBackendSettle (image st) resp iso
             (sendToBackendStart (setMode gallery (setImage (Some src) st)))
      else nothing
  | None => nothing
  end.

(** [!image] as the render tests it. *)
Definition noImage (st : State) : bool :=
  match image st with
  | Some img => String.eqb img ""
  | None => true
  end.

(** [reset]. *)
Definition reset (st : State) : State :=
  setImageDimensions None (setMode camera (setResult None (setImage None st))).

(** [onLoad] of the displayed image. *)
Definition imageLoaded (naturalWidth naturalHeight : float) (st : State) : State :=
  setImageDimensions (Some (naturalWidth, naturalHeight)) st.

(** ** Reloading the persisted history *)

(** [JSON.parse(JSON.stringify(v))] for a value inside the history
    array: a property whose value is [undefined] is dropped, an
    [undefined] array element and a number that is not finite become
    [null], and [-0] becomes [0]; every other number survives the round
    trip through its decimal representation. *)
Fixpoint jsonRoundTrip (v : value) : value :=
  match v with
  | VUndef => VUndef
  | VNull => VNull
  | VBool b => VBool b
  | VNum n =>
      if is_finite n then (if (n =? 0)%float then VNum 0 else VNum n) else VNull
  | VStr s => VStr s
  | VArr elems =>
      VArr (map (fun x => match x with
                          | VUndef => VNull
                          | _ => jsonRoundTrip x
                          end) elems)
  | VObj props =>
      VObj (flat_map (fun p : string * value =>
                        let (k, x) := p in
                        match x with
                        | VUndef => []
                        | _ => [(k, jsonRoundTrip x)]
                        end) props)
  end.

(** What the round trip keeps of one property. *)
Definition keptProperty (p : string * value) : list (string * value) :=
  let (k, x) := p in
  match x with
  | VUndef => []
  | _ => [(k, jsonRoundTrip x)]
  end.

(** What the round trip makes of one array element. *)
Definition keptElement (x : value) : value :=
  match x with
  | VUndef => VNull
  | _ => jsonRoundTrip x
  end.

(** A history entry after [JSON.parse(JSON.stringify(item))]. *)
Definition revive (item : HistoryItem.t) : HistoryItem.t :=
  {| HistoryItem.id := HistoryItem.id item;
     HistoryItem.timestamp := HistoryItem.timestamp item;
     HistoryItem.result := jsonRoundTrip (HistoryItem.result item);
     HistoryItem.imageData := HistoryItem.imageData item;
     HistoryItem.filename := HistoryItem.filename item |}.

(** The effect that loads the history on mount.  The slot holds what the
    persisting effect wrote, which always parses, so the [catch] branch
    is not reached. *)
Definition loadHistory (st : State) : State :=
  match storage st with
  | Some h => setHistory (map revive h) st
  | None => st
  end.

(** The component mounted over a given [localStorage] slot: the cells
    have their initial values, then the loading effect and the persisting
    effect run. *)
Definition mount (slot : option (list HistoryItem.t)) : State :=
  loadHistory (setStorage slot initialState).

(** Reloading the page. *)
Definition reload (st : State) : State := mount (storage st).

(** ** The history panel *)

(** [showHistory] and [currentHistoryPage], beside the cells of
    [State]. *)
Record Screen : Type := {
  ui : State;
  showHistory : bool;
  currentHistoryPage : Z
}.

Definition itemsPerPage : Z := 4.

(** [Math.ceil(n / itemsPerPage)] for a length [n]: the division by 4 is
    exact in binary64, so this is the ceiling of the exact quotient. *)
Definition totalPagesOf (n : Z) : Z :=
  if (n mod itemsPerPage =? 0)%Z then (n / itemsPerPage)%Z
  else (n / itemsPerPage + 1)%Z.

Definition totalPages (h : list HistoryItem.t) : Z :=
  totalPagesOf (Z.of_nat (List.length h)).

(** [l.slice(start, end)]: a negative index counts from the end, and
    both are clamped to the array. *)
Definition slice {A} (start end_ : Z) (l : list A) : list A :=
  let len := Z.of_nat (List.length l) in
  let k := if (start <? 0)%Z then Z.max (len + start) 0 else Z.min start len in
  let final := if (end_ <? 0)%Z then Z.max (len + end_) 0 else Z.min end_ len in
  firstn (Z.to_nat (Z.max (final - k) 0)) (skipn (Z.to_nat k) l).

Definition paginatedHistory (h : list HistoryItem.t) (page : Z) : list HistoryItem.t :=
  let startIndex := (page * itemsPerPage)%Z in
  let endIndex := (startIndex + itemsPerPage)%Z in
  slice startIndex endIndex h.

(** The [Previous] and [Next] buttons. *)
Definition previousPage (page : Z) : Z := Z.max 0 (page - 1).

Definition nextPage (h : list HistoryItem.t) (page : Z) : Z :=
  Z.min (totalPages h - 1) (page + 1).

(** The handlers of the panel; none of the history handlers writes
    [currentHistoryPage]. *)
Definition deleteOnScreen (id : string) (sc : Screen) : Screen :=
  {| ui := deleteHistoryItem id (ui sc);
     showHistory := showHistory sc;
     currentHistoryPage := currentHistoryPage sc |}.

Definition loadHistoryItem (item : HistoryItem.t) (sc : Screen) : Screen :=
  {| ui := setMode gallery
             (setResult (Some (HistoryItem.result item))
                (setImage (Some (HistoryItem.imageData item)) (ui sc)));
     showHistory := false;
     currentHistoryPage := currentHistoryPage sc |}.

Definition shownPage (sc : Screen) : list HistoryItem.t :=
  paginatedHistory (history (ui sc)) (currentHistoryPage sc).

(** ** States the component can be in *)

(** The handlers and effects above, run from a fresh mount in any
    order.  The deferred save runs with the result and the closure of a
    request made in an earlier state. *)
Inductive reachable : State -> Prop :=
| reach_mount : reachable (mount None)
| reach_reload st : reachable st -> reachable (reload st)
| reach_capture st imageSrc resp iso :
    reachable st -> reachable (state (capture imageSrc resp iso st))
| reach_upload st imageUrl resp iso :
    reachable st -> reachable (state (handleUpload imageUrl resp iso st))
| reach_deferred st0 st r ms clock :
    reachable st0 -> reachable st ->
    reachable (runDeferredSave (history st0) (r, image st0) ms clock st)
| reach_loaded st w h : reachable st -> reachable (imageLoaded w h st)
| reach_reset st : reachable st -> reachable (reset st)
| reach_save st ms clock :
    reachable st -> reachable (fst (saveCurrentResult ms clock st))
| reach_open st item :
    reachable st -> In item (history st) ->
    reachable (ui (loadHistoryItem item {| ui := st; showHistory := true;
                                           currentHistoryPage := 0 |}))
| reach_delete st id : reachable st -> reachable (deleteHistoryItem id st)
| reach_clear st confirmed : reachable st -> reachable (clearAllHistory confirmed st).

(** ** Overlay geometry *)

(** [x <= 1 && y <= 1 && width <= 1 && height <= 1]. *)
Definition isNormalized (b : Box) : bool :=
  let '(x, y, w, h) := b in
  ((x <=? 1) && (y <=? 1) && (w <=? 1) && (h <=? 1))%float.

(** The four percentages of [renderBoundingBoxes] for a parsed box and
    the natural size of the displayed image. *)
Definition percentages (b : Box) (dim : float * float) : Box :=
  let '(x, y, w, h) := b in
  let '(width, height) := dim in
  let '(left_, top_, boxWidth, boxHeight) :=
    if isNormalized b
    then (x * width, y * height, w * width, h * height)%float
    else (x, y, w, h) in
  ((left_ / width) * 100, (top_ / height) * 100,
   (boxWidth / width) * 100, (boxHeight / height) * 100)%float.


(** ** The size line of a detection *)

(** [v.toLowerCase()] on a value: only a string has the method. *)
Definition toLowerCaseOf (v : value) : completion string :=
  match v with
  | VStr s => Normal (toLowerCase s)
  | _ => Throw TypeError
  end.

(** [detection.label.toLowerCase() === 'microplastic' &&
    detection.diagonal_µm], the test that guards the size line in the
    overlay label and in the details list; the result is its
    truthiness. *)
Definition showsSize (d : value) : completion bool :=
  label <- get d "label" ;;
  lower <- toLowerCaseOf label ;;
  if String.eqb lower "microplastic"
  then diagonal <- get d "diagonal_µm" ;; ret (ToBoolean diagonal)
  else ret false.

(** What every reachable state satisfies: the history holds at most 50
    entries, a history that is not empty is the array in the slot, and
    the slot never holds an empty array or more than 50 entries. *)
Definition historyInvariant (st : State) : Prop :=
  (List.length (history st) <= 50)%nat
  /\ (history st <> [] -> storage st = Some (history st))
  /\ (forall h, storage st = Some h -> h <> [] /\ (List.length h <= 50)%nat).

(** A state with an image and the result of a successful request on
    display, as after a capture. *)
Definition capturedState : State :=
  state (capture (Some "data:image/jpeg;base64,AAAA") (Resolved sampleResponse)
           "2025-01-01T10:00:00.000Z" (mount None)).

(** A state with an image on display and one saved entry. *)
Definition galleryState : State := setImage (Some "blob:previous") oneItemState.

(** The captured result saved by hand. *)
Definition savedState : State :=
  fst (saveCurrentResult 1735725600000 (sampleClock 1735725600000) capturedState).

(** The history panel on its second page, over five saved entries. *)
Definition secondPageScreen : Screen :=
  {| ui := saveAll (firstn 5 sampleRequests) initialState;
     showHistory := true;
     currentHistoryPage := 1 |}.

(** The types the normalisation guarantees for one detection: the
    confidence is a number other than [NaN], the box an array of numbers,
    the label truthy, each measurement a number or [undefined] and the
    size category truthy or [undefined]. *)
Definition normalisedDetection (d : value) : Prop :=
  (exists c, field "confidence" d = VNum c /\ isNaN c = false)
  /\ (exists ns, field "bbox" d = VArr (map VNum ns))
  /\ ToBoolean (field "label" d) = true
  /\ Forall (fun k => field k d = VUndef \/ exists n, field k d = VNum n)
            measurements
  /\ (field "size_category" d = VUndef
      \/ ToBoolean (field "size_category" d) = true).

(** A response with a numeric label and a box given as strings. *)
Definition numericLabelResponse : value :=
  VObj [ ("count", VNum 1);
         ("detections",
          VArr [ VObj [ ("confidence", VNum 0.9);
                        ("bbox", VArr [VStr "10"; VStr "20"; VStr "30"; VStr "40"]);
                        ("label", VNum 7) ] ]) ].

(** ** Formatting cells *)

(** [v[i]] for an index [i]: it throws on [null] and [undefined], is the
    element of an array, the property named by the index of an object and
    the character of a string (for text outside ASCII the unit differs,
    it is a string either way), and [undefined] otherwise. *)
Definition getIndex (v : value) (i : nat) : completion value :=
  match v with
  | VUndef | VNull => Throw TypeError
  | VArr elems => Normal (index elems i)
  | VObj props =>
      match lookup (toString (Z.of_nat i)) props with
      | Some x => Normal x
      | None => Normal VUndef
      end
  | VStr s =>
      match String.get i s with
      | Some c => Normal (VStr (String c EmptyString))
      | None => Normal VUndef
      end
  | _ => Normal VUndef
  end.

(** [v.toFixed(digits)] with a constant number of digits between 0 and
    2: only a number has the method.  The text is the decimal expansion
    of the number to that many places; the number itself is kept. *)
Definition toFixed (v : value) : completion float :=
  match v with
  | VNum n => Normal n
  | _ => Throw TypeError
  end.

(** [v?.k]: [undefined] on [null] and [undefined]. *)
Definition getOptional (v : value) (k : string) : completion value :=
  match v with
  | VUndef | VNull => Normal VUndef
  | _ => get v k
  end.

(** [result.calibration_info.k]. *)
Definition calibrationField (r : value) (k : string) : completion value :=
  info <- get r "calibration_info" ;;
  get info k.

(** The calibration panel:
    [result?.calibration_info && (... microns_per_pixel.toFixed(2) ...
    field_of_view_µm[0].toFixed(0) ... field_of_view_µm[1].toFixed(0))];
    [None] when the panel is not shown. *)
Definition calibrationPanel (r : value) : completion (option (float * float * float)) :=
  shown <- getOptional r "calibration_info" ;;
  if ToBoolean shown then
    resolution <- calibrationField r "microns_per_pixel" ;;
    resolution <- toFixed resolution ;;
    fov <- calibrationField r "field_of_view_µm" ;;
    w <- getIndex fov 0 ;;
    w <- toFixed w ;;
    fov <- calibrationField r "field_of_view_µm" ;;
    h <- getIndex fov 1 ;;
    h <- toFixed h ;;
    ret (Some (resolution, w, h))
  else ret None.

(** The four box cells of a row of the CSV export:
    [detection.bbox[0].toFixed(0), ..., detection.bbox[3].toFixed(0)]. *)
Definition csvBboxCells (d : value) : completion (list float) :=
  bbox <- get d "bbox" ;;
  x <- getIndex bbox 0 ;;
  x <- toFixed x ;;
  bbox <- get d "bbox" ;;
  y <- getIndex bbox 1 ;;
  y <- toFixed y ;;
  bbox <- get d "bbox" ;;
  w <- getIndex bbox 2 ;;
  w <- toFixed w ;;
  bbox <- get d "bbox" ;;
  h <- getIndex bbox 3 ;;
  h <- toFixed h ;;
  ret [x; y; w; h].

(** A calibration record the panel can show. *)
Definition isNumber (v : value) : bool :=
  match v with
  | VNum _ => true
  | _ => false
  end.

Definition elementAt (v : value) (i : nat) : value :=
  match getIndex v i with
  | Normal x => x
  | Throw _ => VUndef
  end.

Definition showableCalibration (info : value) : bool :=
  isNumber (field "microns_per_pixel" info)
  && isNumber (elementAt (field "field_of_view_µm" info) 0)
  && isNumber (elementAt (field "field_of_view_µm" info) 1).

(** A response whose calibration record is empty, and one whose single
    detection has a box of two numbers. *)
Definition emptyCalibrationResponse : value :=
  VObj [ ("count", VNum 0); ("detections", VArr []);
         ("calibration_info", VObj []) ].

Definition shortBoxDetection : value :=
  VObj [ ("confidence", VNum 0.9); ("bbox", VArr [VNum 10; VNum 20]);
         ("label", VStr "microplastic") ].

(** ** The screenshot as a Blob *)

Local Open Scope Z_scope.

(** A [Blob]: its bytes and its MIME type. *)
Record Blob : Type := {
  content : list Z;
  type : string
}.

(** [new Blob()]. *)
Definition emptyBlob : Blob := {| content := []; type := "" |}.

(** [s.split(sep)] for a separator of one character. *)
Fixpoint splitOn (sep : ascii) (s : string) : list string :=
  match s with
  | EmptyString => [EmptyString]
  | String c r =>
      if Ascii.eqb c sep then EmptyString :: splitOn sep r
      else match splitOn sep r with
           | part :: parts => String c part :: parts
           | [] => [String c EmptyString]
           end
  end.

(** Whether [s] starts with a line terminator (LF, CR, U+2028, U+2029),
    which [.] does not match. *)
Definition startsWithLineTerminator (s : string) : bool :=
  match s with
  | String c r =>
      (code c =? 10)%N || (code c =? 13)%N
      || ((code c =? 226)%N
          && match r with
             | String c1 (String c2 _) =>
                 (code c1 =? 128)%N && ((code c2 =? 168)%N || (code c2 =? 169)%N)
             | _ => false
             end)
  | EmptyString => false
  end.

(** [(.*?);] matched at the start of [s]: the text before the first
    [;], unless a line terminator or the end of [s] comes first. *)
Fixpoint lazyToSemicolon (s : string) : option string :=
  match s with
  | EmptyString => None
  | String c r =>
      if Ascii.eqb c ";" then Some EmptyString
      else if startsWithLineTerminator s then None
      else option_map (String c) (lazyToSemicolon r)
  end.

(** [s.match(/:(.*?);/)?.[1]]: the group of the leftmost match. *)
Fixpoint mimeMatch (s : string) : option string :=
  match s with
  | EmptyString => None
  | String c r =>
      if Ascii.eqb c ":"
      then match lazyToSemicolon r with
           | Some m => Some m
           | None => mimeMatch r
           end
      else mimeMatch r
  end.

(** ASCII white space, which [atob] removes. *)
Definition isAsciiWhitespace (c : ascii) : bool :=
  let n := code c in
  (n =? 9)%N || (n =? 10)%N || (n =? 12)%N || (n =? 13)%N || (n =? 32)%N.

(** The value of a character of the base64 alphabet. *)
Definition base64Value (c : ascii) : option Z :=
  let n := Z.of_N (code c) in
  if (65 <=? n) && (n <=? 90) then Some (n - 65)
  else if (97 <=? n) && (n <=? 122) then Some (n - 71)
  else if (48 <=? n) && (n <=? 57) then Some (n + 4)
  else if n =? 43 then Some 62
  else if n =? 47 then Some 63
  else None.

Definition removeLastEquals (data : list ascii) : list ascii :=
  match rev data with
  | c :: r => if Ascii.eqb c "=" then rev r else data
  | [] => data
  end.

(** One or two [=] at the end are removed when the length is a multiple
    of four. *)
Definition stripPadding (data : list ascii) : list ascii :=
  if (List.length data mod 4 =? 0)%nat
  then removeLastEquals (removeLastEquals data)
  else data.

Fixpoint values (data : list ascii) : option (list Z) :=
  match data with
  | [] => Some []
  | c :: r =>
      match base64Value c, values r with
      | Some v, Some vs => Some (v :: vs)
      | _, _ => None
      end
  end.

(** Groups of four characters give three bytes; of a last group of
    three the low two bits are dropped, of a last group of two the low
    four. *)
Fixpoint decodeSextets (vs : list Z) : list Z :=
  match vs with
  | a :: b :: c :: d :: r =>
      let n := ((a * 64 + b) * 64 + c) * 64 + d in
      n / 65536 :: (n / 256) mod 256 :: n mod 256 :: decodeSextets r
  | [a; b; c] =>
      let n := ((a * 64 + b) * 64 + c) / 4 in
      [n / 256; n mod 256]
  | [a; b] => [(a * 64 + b) / 16]
  | _ => []
  end.

(** [atob(s)]: the code units of the binary string, or [None] where it
    throws. *)
Definition atob (s : string) : option (list Z) :=
  let data := filter (fun c => negb (isAsciiWhitespace c)) (list_ascii_of_string s) in
  let data := stripPadding data in
  if (List.length data mod 4 =? 1)%nat then None
  else option_map decodeSextets (values data).

(** [arr[i] = x] on a typed array: nothing is written out of range. *)
Fixpoint store (i : nat) (x : Z) (arr : list Z) : list Z :=
  match arr, i with
  | [], _ => []
  | _ :: r, O => x mod 256 :: r
  | y :: r, S j => y :: store j x r
  end.

(** [while (n--) { u8arr[n] = bstr.charCodeAt(n); }]. *)
Fixpoint fill (bstr : list Z) (n : nat) (u8arr : list Z) : list Z :=
  match n with
  | O => u8arr
  | S m => fill bstr m (store m (nth m bstr 0) u8arr)
  end.

(** The type of [new Blob(parts, { type })]: empty when a character is
    outside U+0020..U+007E, in lower case otherwise. *)
Definition printable (c : ascii) : bool := (32 <=? code c)%N && (code c <=? 126)%N.

Definition blobType (t : string) : string :=
  if forallb printable (list_ascii_of_string t) then toLowerCase t else EmptyString.

(** [base64ToBlob]: whatever throws inside is caught and gives an empty
    Blob.  Without a comma [arr[1]] is [undefined], which [atob] reads
    as the text [undefined]. *)
Definition base64ToBlob (base64 : string) : Blob :=
  let arr := splitOn "," base64 in
  let mime :=
    match mimeMatch (hd EmptyString arr) with
    | Some m => if String.eqb m "" then "image/jpeg" else m
    | None => "image/jpeg"
    end in
  match atob (nth 1%nat arr "undefined") with
  | Some bstr =>
      let n := List.length bstr in
      {| content := fill bstr n (repeat 0 n); type := blobType mime |}
  | None => emptyBlob
  end.

(** The base64 text of a byte sequence, with padding (RFC 4648), as a
    canvas writes it into a data URL. *)
Definition base64Char (v : Z) : ascii :=
  ascii_of_N (Z.to_N (if v <? 26 then v + 65
                      else if v <? 52 then v + 71
                      else if v <? 62 then v - 4
                      else if v =? 62 then 43 else 47)).

Fixpoint sextets (bs : list Z) : list Z :=
  match bs with
  | a :: b :: c :: r =>
      a / 4 :: (a mod 4) * 16 + b / 16 :: (b mod 16) * 4 + c / 64 :: c mod 64
        :: sextets r
  | [a; b] => [a / 4; (a mod 4) * 16 + b / 16; (b mod 16) * 4]
  | [a] => [a / 4; (a mod 4) * 16]
  | [] => []
  end.

Fixpoint padding (bs : list Z) : list ascii :=
  match bs with
  | _ :: _ :: _ :: r => padding r
  | [_; _] => ["="]%char
  | [_] => ["="; "="]%char
  | [] => []
  end.

Definition base64Encode (bs : list Z) : string :=
  string_of_list_ascii (map base64Char (sextets bs) ++ padding bs).

Definition dataURL (mime : string) (bs : list Z) : string :=
  "data:" ++ mime ++ ";base64," ++ base64Encode bs.

Definition isByte (b : Z) : Prop := 0 <= b < 256.

Definition sextet (v : Z) : Prop := 0 <= v < 64.

(** A MIME type as a data URL names it: printable, without [;] or [,]. *)
Definition plainMime (m : string) : bool :=
  forallb (fun c => printable c && negb (Ascii.eqb c ";") && negb (Ascii.eqb c ","))
          (list_ascii_of_string m).

Local Close Scope Z_scope.

(* ===================================================================== *)
(** * Properties of the conversions *)
(* ===================================================================== *)

Lemma bind_Normal {A B} (c : completion A) (k : A -> completion B) (b : B) :
  bind c k = Normal b -> exists a, c = Normal a /\ k a = Normal b.
Proof. destruct c as [a|e]; cbn; [eauto | discriminate]. Qed.

Ltac invert_bind H :=
  let a := fresh "v" in
  let Ha := fresh "Hv" in
  apply bind_Normal in H; destruct H as (a & Ha & H).

Ltac read_fields :=
  cbn [get lookup String.eqb Ascii.eqb Bool.eqb bind].

Lemma truthyNum_not_NaN (n : float) : truthyNum n = true -> isNaN n = false.
Proof.
  unfold truthyNum. intros H.
  apply negb_true_iff, orb_false_iff in H. apply H.
Qed.

Lemma truthyNum_NaN (n : float) : isNaN n = true -> truthyNum n = false.
Proof.
  unfold truthyNum. intros ->. rewrite orb_true_r. reflexivity.
Qed.

Lemma orZero_not_NaN (n : float) : isNaN (orZero n) = false.
Proof.
  unfold orZero. destruct (truthyNum n) eqn:E.
  - now apply truthyNum_not_NaN.
  - reflexivity.
Qed.

Lemma orZero_NaN (n : float) : isNaN n = true -> orZero n = 0%float.
Proof.
  intros H. unfold orZero. now rewrite (truthyNum_NaN n H).
Qed.

Lemma orZero_truthy (n : float) : truthyNum n = true -> orZero n = n.
Proof. unfold orZero. now intros ->. Qed.

Lemma orZero_idempotent (n : float) : orZero (orZero n) = orZero n.
Proof.
  destruct (truthyNum n) eqn:E.
  - rewrite (orZero_truthy n E). now apply orZero_truthy.
  - unfold orZero. rewrite E. reflexivity.
Qed.

Lemma Number_VNum (n : float) : Number (VNum n) = Normal n.
Proof. reflexivity. Qed.

Lemma Number_Normal (v : value) :
  hidesToString v = false -> Number v = Normal (numeric v).
Proof. unfold Number. now intros ->. Qed.

Lemma Number_Throw (v : value) :
  hidesToString v = true -> Number v = Throw TypeError.
Proof. unfold Number. now intros ->. Qed.

Lemma or_idempotent (a b : value) : or (or a b) b = or a b.
Proof.
  unfold or. destruct (ToBoolean a) eqn:Ea.
  - now rewrite Ea.
  - now destruct (ToBoolean b).
Qed.

Create Rewrite HintDb normalise.
#[local] Hint Rewrite Number_VNum orZero_idempotent or_idempotent : normalise.

(** A few values of [Number] on strings, as the source language gives
    them. *)
Example StringToNumber_samples :
  map StringToNumber ["12"; " 0.75 "; ""; "abc"; "1e999"; "-Infinity"; "0x1F"; "1,2"]
  = [12; 0.75; 0; nan; infinity; neg_infinity; 31; nan]%float.
Proof. vm_compute. reflexivity. Qed.

(* ===================================================================== *)
(** * [parseBbox] *)
(* ===================================================================== *)

Lemma malformedBbox_true (raw : value) :
  malformedBbox raw = true <->
  ToBoolean raw = false \/ isArray raw = false
  \/ (List.length (elements raw) < 4)%nat.
Proof.
  unfold malformedBbox.
  rewrite !orb_true_iff, !negb_true_iff, Nat.ltb_lt. tauto.
Qed.

Lemma malformedBbox_false (raw : value) :
  malformedBbox raw = false ->
  exists e0 e1 e2 e3 rest, raw = VArr (e0 :: e1 :: e2 :: e3 :: rest).
Proof.
  unfold malformedBbox. intros H.
  apply orb_false_iff in H. destruct H as [H Hlen].
  apply orb_false_iff in H. destruct H as [_ Harr].
  destruct raw; try discriminate.
  destruct elems as [|e0 [|e1 [|e2 [|e3 rest]]]]; try discriminate.
  now exists e0, e1, e2, e3, rest.
Qed.

(** C1, counterexample: an infinite component is passed through, so the
    four numbers returned need not be finite. *)
Lemma parseBbox_infinite_component :
  parseBbox (VArr [VNum infinity; VNum 0; VNum 0; VNum 0])
  = Normal (infinity, 0, 0, 0)%float
  /\ finiteBox (infinity, 0, 0, 0)%float = false.
Proof. split; reflexivity. Qed.

(** C1 (amended): when [raw] is missing, not an array or shorter than
    four, [parseBbox] returns (0,0,0,0); otherwise, if converting its
    first four components does not throw, it returns four numbers none
    of which is [NaN]: component [i] is [Number(raw[i]) || 0], which is 0
    whenever the conversion gives [NaN]. *)
Theorem parseBbox_returns_numbers (raw : value) :
  (malformedBbox raw = false ->
   forall i, (i < 4)%nat -> hidesToString (index (elements raw) i) = false) ->
  exists box,
    parseBbox raw = Normal box
    /\ numberBox box = true
    /\ (ToBoolean raw = false \/ isArray raw = false
        \/ (List.length (elements raw) < 4)%nat -> box = zeroBox)
    /\ (malformedBbox raw = false ->
        forall i, (i < 4)%nat ->
          component box i = orZero (numeric (index (elements raw) i))
          /\ (isNaN (numeric (index (elements raw) i)) = true ->
              component box i = 0%float)).
Proof.
  intros Hconv. unfold parseBbox.
  destruct (malformedBbox raw) eqn:Hm.
  - exists zeroBox. repeat split; try reflexivity; discriminate.
  - specialize (Hconv eq_refl).
    destruct (malformedBbox_false raw Hm) as (e0 & e1 & e2 & e3 & rest & ->).
    cbn [elements index nth] in *.
    pose proof (Hconv 0%nat ltac:(lia)) as H0.
    pose proof (Hconv 1%nat ltac:(lia)) as H1.
    pose proof (Hconv 2%nat ltac:(lia)) as H2.
    pose proof (Hconv 3%nat ltac:(lia)) as H3.
    cbn [nth] in H0, H1, H2, H3.
    rewrite (Number_Normal _ H0), (Number_Normal _ H1),
            (Number_Normal _ H2), (Number_Normal _ H3).
    cbn [bind].
    eexists. split; [reflexivity|]. split; [|split].
    + cbn [numberBox]. now rewrite !orZero_not_NaN.
    + intros Hmal. apply malformedBbox_true in Hmal. congruence.
    + intros _ i Hi.
      destruct i as [|[|[|[|i]]]]; try lia; cbn [component nth];
        (split; [reflexivity | apply orZero_NaN]).
Qed.

(** Witness of [parseBbox_returns_numbers]: strings, booleans and [null]
    are converted, a non-numeric string becomes 0. *)
Lemma parseBbox_returns_numbers_witness :
  (malformedBbox (VArr [VStr "12"; VBool true; VStr "abc"; VNull]) = false ->
   forall i, (i < 4)%nat ->
     hidesToString
       (index (elements (VArr [VStr "12"; VBool true; VStr "abc"; VNull])) i)
     = false)
  /\ exists box,
       parseBbox (VArr [VStr "12"; VBool true; VStr "abc"; VNull]) = Normal box
       /\ numberBox box = true.
Proof.
  assert (H : malformedBbox (VArr [VStr "12"; VBool true; VStr "abc"; VNull]) = false ->
              forall i, (i < 4)%nat ->
                hidesToString
                  (index (elements (VArr [VStr "12"; VBool true; VStr "abc"; VNull])) i)
                = false).
  { intros _ i Hi. destruct i as [|[|[|[|i]]]]; try lia; reflexivity. }
  split; [exact H|].
  destruct (parseBbox_returns_numbers _ H) as (box & Hbox & Hnum & _).
  exists box. split; assumption.
Defined.

Example parseBbox_mixed :
  parseBbox (VArr [VStr "12"; VBool true; VStr "abc"; VNull])
  = Normal (12, 1, 0, 0)%float.
Proof. vm_compute. reflexivity. Qed.

Example parseBbox_throws :
  parseBbox (VArr [VObj [("toString", VNum 1)]; VNum 0; VNum 0; VNum 0])
  = Throw TypeError.
Proof. reflexivity. Qed.

(* ===================================================================== *)
(** * [getSizeCategoryColor] *)
(* ===================================================================== *)

Lemma getSizeCategoryColor_category (d : Detection) (c : string) :
  size_category d = Some c -> categoryPolicy d = true ->
  getSizeCategoryColor d =
  match sizeCategoryColorsAt c with
  | Some t => if truthyTreatment t then t else Classes grayClasses
  | None => Classes grayClasses
  end.
Proof.
  unfold categoryPolicy, getSizeCategoryColor. intros -> H. now rewrite H.
Qed.

Lemma getSizeCategoryColor_fallback (d : Detection) :
  categoryPolicy d = false ->
  getSizeCategoryColor d = Classes (confidenceBand (confidence d)).
Proof.
  unfold categoryPolicy, getSizeCategoryColor.
  destruct (size_category d); [|reflexivity]. now intros ->.
Qed.

Lemma categoryPolicy_label (d : Detection) :
  toLowerCase (label d) <> "microplastic" -> categoryPolicy d = false.
Proof.
  unfold categoryPolicy. intros H. destruct (size_category d); [|reflexivity].
  destruct (String.eqb_spec (toLowerCase (label d)) "microplastic").
  - contradiction.
  - apply andb_false_r.
Qed.

(** C8: a detection labelled [microplastic] (in any letter case) with
    size category [medium] gets the medium size treatment whatever its
    confidence; a detection with another label and confidence 0.75 gets
    the high-confidence treatment whatever its size category.  The two
    policies do not mix: where the category policy applies the result
    does not depend on the confidence, and elsewhere it is the confidence
    band, which depends on nothing but the confidence. *)
Theorem classification_policies :
  (forall d, toLowerCase (label d) = "microplastic" ->
             size_category d = Some "medium" ->
             getSizeCategoryColor d
             = Classes "border-blue-500 bg-blue-500/10 text-blue-400")
  /\ (forall d, toLowerCase (label d) <> "microplastic" ->
                confidence d = 0.75%float ->
                getSizeCategoryColor d = Classes highClasses)
  /\ (forall d c, categoryPolicy d = true ->
                  getSizeCategoryColor (withConfidence c d)
                  = getSizeCategoryColor d)
  /\ (forall d, categoryPolicy d = false ->
                getSizeCategoryColor d
                = Classes (confidenceBand (confidence d))).
Proof.
  repeat split.
  - intros d Hl Hs. unfold getSizeCategoryColor. rewrite Hs, Hl. reflexivity.
  - intros d Hl Hc.
    rewrite (getSizeCategoryColor_fallback d (categoryPolicy_label d Hl)), Hc.
    reflexivity.
  - intros d c H. unfold categoryPolicy in H. unfold getSizeCategoryColor.
    cbn [withConfidence size_category label confidence].
    destruct (size_category d); [|discriminate]. now rewrite H.
  - apply getSizeCategoryColor_fallback.
Qed.

(** Witness of [classification_policies]: a low-confidence
    ["MicroPlastic"] of medium size, and a ["fiber"] of confidence 0.75
    that carries a size category. *)
Lemma classification_policies_witness :
  (toLowerCase (label (detection 0.1 "MicroPlastic" (Some "medium"))) = "microplastic"
   /\ size_category (detection 0.1 "MicroPlastic" (Some "medium")) = Some "medium"
   /\ getSizeCategoryColor (detection 0.1 "MicroPlastic" (Some "medium"))
      = Classes "border-blue-500 bg-blue-500/10 text-blue-400")
  /\ (toLowerCase (label (detection 0.75 "fiber" (Some "large"))) <> "microplastic"
      /\ confidence (detection 0.75 "fiber" (Some "large")) = 0.75%float
      /\ getSizeCategoryColor (detection 0.75 "fiber" (Some "large"))
         = Classes highClasses).
Proof.
  destruct classification_policies as (Hmedium & Hhigh & _).
  split.
  - split; [reflexivity|]. split; [reflexivity|].
    apply Hmedium; reflexivity.
  - assert (Hl : toLowerCase (label (detection 0.75 "fiber" (Some "large")))
                 <> "microplastic") by (simpl; discriminate).
    split; [exact Hl|]. split; [reflexivity|].
    apply Hhigh; [exact Hl | reflexivity].
Defined.

(** The threshold is strict: exactly 0.7 is in the middle band. *)
Example confidenceBand_threshold :
  confidenceBand 0.7 = mediumBandClasses /\ confidenceBand 0.4 = lowClasses.
Proof. split; reflexivity. Qed.

(** The gray default differs from the four size treatments and from the
    three confidence bands. *)
Lemma gray_is_a_third_outcome :
  ~ In (Classes grayClasses) (sizeTreatments ++ bandTreatments).
Proof.
  cbn. intros H.
  repeat (destruct H as [H | H]; [discriminate H|]). exact H.
Qed.

(** A category outside the table that names no member of
    [Object.prototype] gets the gray default. *)
Lemma getSizeCategoryColor_gray (d : Detection) (c : string) :
  size_category d = Some c -> categoryPolicy d = true ->
  ownProperty c sizeCategoryColors = None ->
  existsb (String.eqb c) objectPrototype = false ->
  getSizeCategoryColor d = Classes grayClasses.
Proof.
  intros Hs Hp Hown Hproto.
  rewrite (getSizeCategoryColor_category d c Hs Hp).
  unfold sizeCategoryColorsAt. now rewrite Hown, Hproto.
Qed.

(** C10, at the failing input: a [microplastic] whose size category is
    the non-empty string ["toString"], outside the closed set, does not
    get the gray default: the read [sizeCategoryColors["toString"]] finds
    the method inherited from [Object.prototype], which is truthy, and
    the classifier returns it. *)
Theorem getSizeCategoryColor_inherited_member :
  getSizeCategoryColor (detection 0.9 "microplastic" (Some "toString"))
  = PrototypeMember "toString"
  /\ ownProperty "toString" sizeCategoryColors = None
  /\ PrototypeMember "toString" <> Classes grayClasses.
Proof. repeat split. discriminate. Qed.

(* ===================================================================== *)
(** * The history store *)
(* ===================================================================== *)

Lemma history_persistHistory (st : State) : history (persistHistory st) = history st.
Proof. unfold persistHistory. now destruct (0 <? _)%nat. Qed.

Lemma history_setHistory (h : list HistoryItem.t) (st : State) :
  history (setHistory h st) = h.
Proof. unfold setHistory. now rewrite history_persistHistory. Qed.

Lemma storage_setHistory (h : list HistoryItem.t) (st : State) :
  storage (setHistory h st) = match h with [] => storage st | _ => Some h end.
Proof. unfold setHistory, persistHistory. now destruct h. Qed.

Lemma history_saveToHistory (clock : Clock) (r : value) (img name : string) (st : State) :
  history (saveToHistory clock r img name st)
  = firstn 50 (historyItem clock r img name :: history st).
Proof. unfold saveToHistory. now rewrite history_setHistory. Qed.

Lemma firstn_app_firstn {A} (n : nat) (l m : list A) :
  firstn n (l ++ firstn n m) = firstn n (l ++ m).
Proof.
  rewrite !firstn_app, firstn_firstn. f_equal. f_equal. lia.
Qed.

Lemma saveAll_cons (q : SaveRequest) (reqs : list SaveRequest) (st : State) :
  saveAll (q :: reqs) st
  = saveAll reqs (saveToHistory (req_clock q) (req_result q) (req_image q)
                                (req_filename q) st).
Proof. reflexivity. Qed.

(** Appending in sequence keeps the most recent fifty, newest first. *)
Lemma history_saveAll (reqs : list SaveRequest) (st : State) :
  (List.length (history st) <= 50)%nat ->
  history (saveAll reqs st) = firstn 50 (rev (map itemOf reqs) ++ history st).
Proof.
  revert st. induction reqs as [|q reqs IH]; intros st Hlen.
  - cbn [saveAll fold_left map rev app]. symmetry. now apply firstn_all2.
  - rewrite saveAll_cons, IH.
    + rewrite history_saveToHistory, firstn_app_firstn.
      cbn [map rev]. now rewrite <- app_assoc.
    + rewrite history_saveToHistory, length_firstn. lia.
Qed.

(** C6: from an empty history, 55 appends in sequence leave exactly 50
    items, the 50 most recently appended, newest first; each append puts
    the new item in front and keeps at most 50, dropping from the tail. *)
Theorem history_cap (reqs : list SaveRequest) (st : State) :
  history st = [] ->
  List.length reqs = 55%nat ->
  history (saveAll reqs st) = rev (map itemOf (skipn 5 reqs))
  /\ List.length (history (saveAll reqs st)) = 50%nat
  /\ (forall q st',
        history (saveToHistory (req_clock q) (req_result q) (req_image q)
                               (req_filename q) st')
        = firstn 50 (itemOf q :: history st')).
Proof.
  intros Hempty Hlen.
  assert (Hh : history (saveAll reqs st) = rev (map itemOf (skipn 5 reqs))).
  { rewrite history_saveAll by (rewrite Hempty; cbn; lia).
    rewrite Hempty, app_nil_r, firstn_rev, length_map, Hlen.
    now rewrite skipn_map. }
  split; [exact Hh|]. split.
  - rewrite Hh, length_rev, length_map, length_skipn. lia.
  - intros q st'. apply history_saveToHistory.
Qed.

(** Witness of [history_cap]: 55 requests at successive milliseconds. *)
Lemma history_cap_witness :
  history initialState = []
  /\ List.length sampleRequests = 55%nat
  /\ history (saveAll sampleRequests initialState)
     = rev (map itemOf (skipn 5 sampleRequests))
  /\ List.length (history (saveAll sampleRequests initialState)) = 50%nat.
Proof.
  split; [reflexivity|]. split; [reflexivity|].
  destruct (history_cap sampleRequests initialState eq_refl eq_refl)
    as (Hh & Hl & _).
  split; assumption.
Defined.

(** ** Persistence *)

Lemma saveToHistory_persisted (clock : Clock) (r : value) (img name : string) (st : State) :
  storage (saveToHistory clock r img name st)
  = Some (history (saveToHistory clock r img name st)).
Proof.
  unfold saveToHistory. rewrite history_setHistory, storage_setHistory.
  reflexivity.
Qed.

Lemma deleteHistoryItem_persisted (id : string) (st : State) :
  history (deleteHistoryItem id st) <> [] ->
  storage (deleteHistoryItem id st) = Some (history (deleteHistoryItem id st)).
Proof.
  unfold deleteHistoryItem. rewrite history_setHistory, storage_setHistory.
  now destruct (filter _ _).
Qed.

Lemma clearAllHistory_persisted (st : State) :
  history (clearAllHistory true st) = []
  /\ storage (clearAllHistory true st) = None.
Proof. split; reflexivity. Qed.

(** Deleting the last remaining entry leaves the slot as it was. *)
Lemma deleteHistoryItem_last_entry_stale (id : string) (st : State) :
  history (deleteHistoryItem id st) = [] ->
  storage (deleteHistoryItem id st) = storage st.
Proof.
  unfold deleteHistoryItem. rewrite history_setHistory, storage_setHistory.
  now intros ->.
Qed.

(** C4, at the failing input: with one entry saved (and persisted),
    deleting that entry empties the in-memory history, but the effect
    writes only a non-empty history, so the slot still holds the deleted
    entry. *)
Theorem delete_last_entry_not_persisted :
  List.length (history oneItemState) = 1%nat
  /\ storage oneItemState = Some (history oneItemState)
  /\ history (deleteHistoryItem "1735725600000" oneItemState) = []
  /\ storage (deleteHistoryItem "1735725600000" oneItemState)
     = Some (history oneItemState).
Proof. repeat split. Qed.

(** ** Deletion *)

Lemma occurrences_NoDup (id : string) (h : list HistoryItem.t) :
  NoDup (map HistoryItem.id h) -> (occurrences id h <= 1)%nat.
Proof.
  unfold occurrences. induction h as [|x h IH]; intros Hnd.
  - cbn. lia.
  - inversion Hnd as [|? ? Hnotin Hnd']; subst. cbn [filter].
    destruct (String.eqb_spec (HistoryItem.id x) id) as [Heq|Hne].
    + cbn [List.length].
      assert (Hz : filter (fun item => String.eqb (HistoryItem.id item) id) h = []).
      { clear IH Hnd Hnd'. induction h as [|y h IHh]; [reflexivity|].
        cbn [filter]. destruct (String.eqb_spec (HistoryItem.id y) id) as [Hy|Hy].
        - exfalso. apply Hnotin. left. congruence.
        - apply IHh. intros Hin. apply Hnotin. now right. }
      rewrite Hz. cbn. lia.
    + now apply IH.
Qed.

(** C9, counterexample: two entries saved at the same clock reading share
    their identifier, and one deletion removes both. *)
Lemma deleteHistoryItem_removes_two :
  List.length
    (history
       (saveToHistory (sampleClock 1735725600000) sampleResult "b" "second"
          (saveToHistory (sampleClock 1735725600000) sampleResult "a" "first"
             initialState))) = 2%nat
  /\ history
       (deleteHistoryItem "1735725600000"
          (saveToHistory (sampleClock 1735725600000) sampleResult "b" "second"
             (saveToHistory (sampleClock 1735725600000) sampleResult "a" "first"
                initialState))) = [].
Proof. split; reflexivity. Qed.

(** C9 (amended): [deleteHistoryItem] removes every entry whose
    identifier is the given one and keeps the others in order; that is at
    most one entry when the identifiers in the history are pairwise
    distinct, and with an identifier on no entry the history is
    unchanged. *)
Theorem deleteHistoryItem_removes_matching (id : string) (st : State) :
  history (deleteHistoryItem id st)
  = filter (fun item => negb (String.eqb (HistoryItem.id item) id)) (history st)
  /\ (List.length (history (deleteHistoryItem id st)) + occurrences id (history st)
      = List.length (history st))%nat
  /\ (forall item, In item (history (deleteHistoryItem id st)) <->
                   In item (history st) /\ HistoryItem.id item <> id)
  /\ (NoDup (map HistoryItem.id (history st)) ->
      (List.length (history st)
       <= List.length (history (deleteHistoryItem id st)) + 1)%nat)
  /\ (~ In id (map HistoryItem.id (history st)) ->
      history (deleteHistoryItem id st) = history st).
Proof.
  unfold deleteHistoryItem. rewrite history_setHistory.
  set (keep := fun item => negb (String.eqb (HistoryItem.id item) id)).
  assert (Hlen : (List.length (filter keep (history st)) + occurrences id (history st)
                  = List.length (history st))%nat).
  { unfold occurrences. rewrite Nat.add_comm.
    rewrite <- (filter_length (fun item => String.eqb (HistoryItem.id item) id)
                              (history st)).
    reflexivity. }
  split; [reflexivity|]. split; [exact Hlen|]. split; [|split].
  - intros item. rewrite filter_In. unfold keep.
    rewrite negb_true_iff. 
    destruct (String.eqb_spec (HistoryItem.id item) id); intuition congruence.
  - intros Hnd. pose proof (occurrences_NoDup id _ Hnd). lia.
  - intros Hnotin. apply forallb_filter_id. apply forallb_forall.
    intros item Hin. unfold keep. apply negb_true_iff.
    destruct (String.eqb_spec (HistoryItem.id item) id) as [Heq|]; [|reflexivity].
    exfalso. apply Hnotin. rewrite <- Heq. now apply in_map.
Qed.

(** Witness of [deleteHistoryItem_removes_matching]: two entries saved
    at successive milliseconds; deleting the first removes one entry,
    deleting an identifier that is not there changes nothing. *)
Lemma deleteHistoryItem_removes_matching_witness :
  NoDup (map HistoryItem.id (history twoItemState))
  /\ ~ In "0" (map HistoryItem.id (history twoItemState))
  /\ (List.length (history twoItemState)
      <= List.length (history (deleteHistoryItem "1735725600000" twoItemState)) + 1)%nat
  /\ history (deleteHistoryItem "0" twoItemState) = history twoItemState.
Proof.
  assert (Hnd : NoDup (map HistoryItem.id (history twoItemState))).
  { vm_compute. repeat constructor; cbn; intuition discriminate. }
  assert (Hnotin : ~ In "0" (map HistoryItem.id (history twoItemState))).
  { vm_compute. intuition discriminate. }
  split; [exact Hnd|]. split; [exact Hnotin|]. split.
  - destruct (deleteHistoryItem_removes_matching "1735725600000" twoItemState)
      as (_ & _ & _ & Hone & _).
    exact (Hone Hnd).
  - destruct (deleteHistoryItem_removes_matching "0" twoItemState)
      as (_ & _ & _ & _ & Hsame).
    exact (Hsame Hnotin).
Defined.

(* ===================================================================== *)
(** * The detection request *)
(* ===================================================================== *)

(** C3, counterexample: a result is displayed, the user uploads a new
    image and the request is rejected; afterwards no result is displayed,
    because the request cleared it when it started. *)
Lemma failed_request_clears_result :
  result displayedState = Some sampleResult
  /\ result (state (sendToBackend Rejected "2025-01-01T10:00:00.000Z" displayedState))
     = None
  /\ result (state (handleUpload "blob:next" Rejected "2025-01-01T10:00:00.000Z"
                                 displayedState))
     = None.
Proof. repeat split. Qed.

(** C3 (amended): when the request is rejected, the failure is announced,
    the loading state is cleared and no result is displayed (the result
    and the image dimensions were cleared when the request started and
    are not restored); image, mode, history and storage are untouched and
    nothing is saved. *)
Theorem failed_request_state (st : State) (iso : string) :
  loading (state (sendToBackend Rejected iso st)) = false
  /\ result (state (sendToBackend Rejected iso st)) = None
  /\ imageDimensions (state (sendToBackend Rejected iso st)) = None
  /\ image (state (sendToBackend Rejected iso st)) = image st
  /\ mode (state (sendToBackend Rejected iso st)) = mode st
  /\ history (state (sendToBackend Rejected iso st)) = history st
  /\ storage (state (sendToBackend Rejected iso st)) = storage st
  /\ alerts (sendToBackend Rejected iso st) = ["Detection failed. Please try again."]
  /\ deferredSave (sendToBackend Rejected iso st) = None.
Proof. repeat split. Qed.

(* ===================================================================== *)
(** * Result normalisation *)
(* ===================================================================== *)

Lemma get_Normal (v : value) (k : string) (x : value) :
  get v k = Normal x -> x = field k v /\ v <> VUndef /\ v <> VNull.
Proof.
  destruct v; cbn; try discriminate;
    try (intros [= <-]; repeat split; discriminate).
  destruct (lookup k props); intros [= <-]; repeat split; discriminate.
Qed.

Lemma get_field (v : value) (k : string) :
  v <> VUndef -> v <> VNull -> get v k = Normal (field k v).
Proof.
  destruct v; cbn; try congruence. now destruct (lookup k props).
Qed.

Lemma mapM_Number_VNum (ns : list float) : mapM Number (map VNum ns) = Normal ns.
Proof.
  induction ns as [|n ns IH]; [reflexivity|].
  cbn [map mapM]. rewrite Number_VNum, IH. reflexivity.
Qed.

(** [b.map(Number)] of an array of numbers is that array. *)
Lemma numberArray_fixed (b b' : value) :
  numberArray b = Normal b' -> numberArray b' = Normal b'.
Proof.
  unfold numberArray at 1. destruct (isArray b).
  - intros H. invert_bind H. injection H as <-.
    unfold numberArray. cbn [isArray elements]. now rewrite mapM_Number_VNum.
  - intros [= <-]. reflexivity.
Qed.

Lemma optionalNumber_fixed (v v' : value) :
  optionalNumber v = Normal v' -> stableMeasurement v' = true ->
  optionalNumber v' = Normal v'.
Proof.
  unfold optionalNumber at 1. destruct (ToBoolean v).
  - intros H. invert_bind H. injection H as <-. cbn [stableMeasurement].
    intros Ht. unfold optionalNumber. cbn [ToBoolean]. now rewrite Ht.
  - intros [= <-] _. reflexivity.
Qed.

(** A normalised detection whose measurements are stable is normalised
    to itself. *)
Lemma processDetection_fixed (d d' : value) :
  processDetection d = Normal d' -> stableDetection d' = true ->
  processDetection d' = Normal d'.
Proof.
  unfold processDetection at 1. intros H.
  do 16 (invert_bind H).
  injection H as <-.
  unfold stableDetection, measurements.
  cbn [forallb field lookup String.eqb Ascii.eqb Bool.eqb andb].
  rewrite !andb_true_iff. intros (S1 & S2 & S3 & S4 & S5 & _).
  unfold processDetection. read_fields.
  rewrite Number_VNum. read_fields.
  rewrite (numberArray_fixed _ _ Hv2). read_fields.
  rewrite (optionalNumber_fixed _ _ Hv5 S1). read_fields.
  rewrite (optionalNumber_fixed _ _ Hv7 S2). read_fields.
  rewrite (optionalNumber_fixed _ _ Hv9 S3). read_fields.
  rewrite (optionalNumber_fixed _ _ Hv11 S4). read_fields.
  rewrite (optionalNumber_fixed _ _ Hv13 S5). read_fields.
  autorewrite with normalise. reflexivity.
Qed.

Lemma mapM_Normal_cons {A B} (f : A -> completion B) (x : A) (xs : list A) (ys : list B) :
  mapM f (x :: xs) = Normal ys ->
  exists y ys', ys = y :: ys' /\ f x = Normal y /\ mapM f xs = Normal ys'.
Proof.
  cbn [mapM]. destruct (f x) as [y|]; [|discriminate].
  destruct (mapM f xs) as [ys'|]; [|discriminate].
  intros [= <-]. eauto.
Qed.

Lemma mapM_processDetection_fixed (ds ds' : list value) :
  mapM processDetection ds = Normal ds' ->
  forallb stableDetection ds' = true ->
  mapM processDetection ds' = Normal ds'.
Proof.
  revert ds'. induction ds as [|d ds IH]; intros ds' H.
  - injection H as <-. reflexivity.
  - apply mapM_Normal_cons in H. destruct H as (d' & ds'' & -> & Hd & Hds).
    cbn [forallb]. rewrite andb_true_iff. intros [Sd Sds].
    cbn [mapM]. rewrite (processDetection_fixed d d' Hd Sd), (IH ds'' Hds Sds).
    reflexivity.
Qed.

Lemma lookup_withTimestamp (t k : string) (props : list (string * value)) :
  k <> "timestamp" ->
  lookup k (map (fun p => if String.eqb (fst p) "timestamp"
                          then (fst p, VStr t) else p) props)
  = lookup k props.
Proof.
  intros Hk. induction props as [|[k' v] props IH]; [reflexivity|].
  cbn [map fst]. destruct (String.eqb_spec k' "timestamp") as [->|Hk'].
  - cbn [lookup]. destruct (String.eqb_spec k "timestamp"); [contradiction|].
    exact IH.
  - cbn [lookup]. now rewrite IH.
Qed.

Lemma field_withTimestamp (t k : string) (r : value) :
  k <> "timestamp" -> field k (withTimestamp t r) = field k r.
Proof.
  intros Hk. destruct r; try reflexivity.
  cbn [withTimestamp field]. now rewrite lookup_withTimestamp.
Qed.

(** Shape of a normalised result. *)
Lemma processedResult_Normal (t : string) (data r : value) :
  processedResult t data = Normal r ->
  exists detections,
    (if isArray (field "detections" data)
     then mapM processDetection (elements (field "detections" data))
     else Normal []) = Normal detections
    /\ r = VObj [ ("count", or (field "count" data) (VNum 0));
                  ("detections", VArr detections);
                  ("image_size", field "image_size" data);
                  ("size_counts", or (field "size_counts" data) zeroSizeCounts);
                  ("calibration_info", field "calibration_info" data);
                  ("timestamp", VStr t) ].
Proof.
  unfold processedResult. intros H. do 6 (invert_bind H).
  injection H as <-.
  apply get_Normal in Hv, Hv0, Hv2, Hv3, Hv4.
  destruct Hv as (-> & _), Hv0 as (-> & _), Hv2 as (-> & _),
           Hv3 as (-> & _), Hv4 as (-> & _).
  exists v1. split; [exact Hv1 | reflexivity].
Qed.

(** C7, counterexample: the measurement [width_px: "0"] is normalised to
    the number 0, and normalising the result again turns it into
    [undefined]. *)
Lemma renormalisation_changes_measurement :
  exists r1 r2,
    processedResult "2025-01-01T10:00:00.000Z"
      (VObj [ ("count", VNum 1);
              ("detections",
               VArr [ VObj [ ("confidence", VNum 0.9);
                             ("bbox", VArr [VNum 10; VNum 20; VNum 30; VNum 40]);
                             ("label", VStr "microplastic");
                             ("width_px", VStr "0") ] ]) ])
    = Normal r1
    /\ processedResult "2025-01-01T10:00:05.000Z" r1 = Normal r2
    /\ field "width_px" (index (elements (field "detections" r1)) 0) = VNum 0
    /\ field "width_px" (index (elements (field "detections" r2)) 0) = VUndef
    /\ field "detections" r2 <> field "detections" r1.
Proof.
  eexists. eexists.
  split; [vm_compute; reflexivity|].
  split; [vm_compute; reflexivity|].
  split; [reflexivity|]. split; [reflexivity|].
  vm_compute. discriminate.
Qed.

(** C7 (amended): normalising a normalised result again, at clock
    reading [t2], succeeds and returns the same result with [timestamp]
    replaced by [t2], provided no optional measurement of the first
    result is 0 or [NaN]; the new timestamp is the second clock reading,
    whatever the first was. *)
Theorem normalisation_idempotent (t1 t2 : string) (data r : value) :
  processedResult t1 data = Normal r ->
  stableResult r = true ->
  processedResult t2 r = Normal (withTimestamp t2 r)
  /\ (forall k, k <> "timestamp" -> field k (withTimestamp t2 r) = field k r)
  /\ field "timestamp" (withTimestamp t2 r) = VStr t2.
Proof.
  intros H Hstable.
  destruct (processedResult_Normal t1 data r H) as (ds & Hds & ->).
  split; [|split].
  - unfold stableResult in Hstable.
    cbn [field lookup String.eqb Ascii.eqb Bool.eqb elements] in Hstable.
    assert (Hfix : mapM processDetection ds = Normal ds).
    { destruct (isArray (field "detections" data)).
      - now apply (mapM_processDetection_fixed _ _ Hds).
      - injection Hds as <-. reflexivity. }
    unfold processedResult. read_fields. cbn [isArray elements].
    rewrite Hfix. read_fields.
    autorewrite with normalise. reflexivity.
  - intros k Hk. now apply field_withTimestamp.
  - reflexivity.
Qed.

(** Witness of [normalisation_idempotent]. *)
Lemma normalisation_idempotent_witness :
  exists r,
    processedResult "2025-01-01T10:00:00.000Z" sampleResponse = Normal r
    /\ stableResult r = true
    /\ processedResult "2025-01-01T10:00:05.000Z" r
       = Normal (withTimestamp "2025-01-01T10:00:05.000Z" r).
Proof.
  eexists.
  split; [vm_compute; reflexivity|].
  split; [vm_compute; reflexivity|].
  refine (proj1 (normalisation_idempotent "2025-01-01T10:00:00.000Z"
                   "2025-01-01T10:00:05.000Z" sampleResponse _ _ _));
    vm_compute; reflexivity.
Defined.

(** ** Malformed elements *)

Lemma hidesToString_truthy (v : value) : hidesToString v = true -> ToBoolean v = true.
Proof. destruct v; cbn; try discriminate; reflexivity. Qed.

Lemma mapM_Number_Normal (l : list value) :
  existsb hidesToString l = false -> mapM Number l = Normal (map numeric l).
Proof.
  induction l as [|x l IH]; [reflexivity|].
  cbn [existsb]. intros H. apply orb_false_iff in H. destruct H as [Hx Hl].
  cbn [mapM map]. now rewrite (Number_Normal x Hx), (IH Hl).
Qed.

Lemma mapM_Number_Throw (l : list value) :
  existsb hidesToString l = true -> mapM Number l = Throw TypeError.
Proof.
  induction l as [|x l IH]; [discriminate|].
  cbn [existsb mapM]. destruct (hidesToString x) eqn:Hx.
  - now rewrite (Number_Throw x Hx).
  - cbn [orb]. intros H. now rewrite (Number_Normal x Hx), (IH H).
Qed.

Lemma numberArray_Normal (b : value) :
  (isArray b && hidesToString b) = false ->
  exists b', numberArray b = Normal b'.
Proof.
  unfold numberArray. destruct b; cbn [isArray andb]; eauto.
  cbn [hidesToString elements]. intros H.
  rewrite (mapM_Number_Normal _ H). cbn [bind]. eauto.
Qed.

Lemma numberArray_Throw (b : value) :
  (isArray b && hidesToString b) = true -> numberArray b = Throw TypeError.
Proof.
  unfold numberArray. destruct b; cbn [isArray andb]; try discriminate.
  cbn [hidesToString elements]. intros H. now rewrite (mapM_Number_Throw _ H).
Qed.

Lemma optionalNumber_Normal (v : value) :
  hidesToString v = false -> exists v', optionalNumber v = Normal v'.
Proof.
  unfold optionalNumber. intros H. rewrite (Number_Normal v H).
  destruct (ToBoolean v); cbn [bind]; eauto.
Qed.

Lemma optionalNumber_Throw (v : value) :
  hidesToString v = true -> optionalNumber v = Throw TypeError.
Proof.
  unfold optionalNumber. intros H.
  now rewrite (hidesToString_truthy v H), (Number_Throw v H).
Qed.

Lemma processDetection_convertible (d : value) :
  d <> VUndef -> d <> VNull ->
  if convertibleFields d
  then exists d', processDetection d = Normal d'
  else processDetection d = Throw TypeError.
Proof.
  intros Hu Hn. unfold convertibleFields, processDetection.
  rewrite (get_field d _ Hu Hn); cbn [bind].
  destruct (hidesToString (field "confidence" d)) eqn:Hc;
    [ now rewrite (Number_Throw _ Hc)
    | rewrite (Number_Normal _ Hc); cbn [bind negb andb] ].
  rewrite (get_field d _ Hu Hn); cbn [bind].
  destruct (isArray (field "bbox" d) && hidesToString (field "bbox" d)) eqn:Hb;
    [ now rewrite (numberArray_Throw _ Hb)
    | destruct (numberArray_Normal _ Hb) as (b' & ->); cbn [bind negb andb] ].
  rewrite (get_field d _ Hu Hn); cbn [bind].
  unfold measurements; cbn [forallb].
  repeat (rewrite (get_field d _ Hu Hn); cbn [bind];
    match goal with
    | |- context [optionalNumber (field ?k d)] =>
        let H := fresh "Hm" in
        destruct (hidesToString (field k d)) eqn:H;
        [ now rewrite (optionalNumber_Throw _ H)
        | destruct (optionalNumber_Normal _ H) as (? & ->); cbn [bind negb andb] ]
    end).
  rewrite (get_field d _ Hu Hn); cbn [bind]; eauto.
Qed.

(** The normalisation of an element throws exactly on the elements it
    does not accept. *)
Lemma processDetection_accepts (d : value) :
  if acceptedElement d
  then exists d', processDetection d = Normal d'
  else processDetection d = Throw TypeError.
Proof.
  destruct d; try reflexivity; apply processDetection_convertible; discriminate.
Qed.

Lemma mapM_processDetection_accepts (ds : list value) :
  if forallb acceptedElement ds
  then exists ds', mapM processDetection ds = Normal ds'
  else mapM processDetection ds = Throw TypeError.
Proof.
  induction ds as [|d ds IH]; [cbn; eauto|].
  cbn [forallb mapM]. pose proof (processDetection_accepts d) as Hd.
  destruct (acceptedElement d); cbn [andb].
  - destruct Hd as (d' & ->).
    destruct (forallb acceptedElement ds).
    + destruct IH as (ds' & ->). eauto.
    + now rewrite IH.
  - now rewrite Hd.
Qed.

(** The normalisation of a response throws exactly when the response is
    [null] or [undefined] or its [detections] array has an element that
    is not accepted. *)
Lemma processedResult_accepts (t : string) (data : value) :
  if acceptedResponse data
  then exists r, processedResult t data = Normal r
  else processedResult t data = Throw TypeError.
Proof.
  assert (Hmain : data <> VUndef -> data <> VNull ->
    if negb (isArray (field "detections" data))
       || forallb acceptedElement (elements (field "detections" data))
    then exists r, processedResult t data = Normal r
    else processedResult t data = Throw TypeError).
  { intros Hu Hn. unfold processedResult.
    do 2 (rewrite (get_field data _ Hu Hn); cbn [bind]).
    destruct (isArray (field "detections" data)); cbn [negb orb].
    - pose proof (mapM_processDetection_accepts
                    (elements (field "detections" data))) as Hds.
      destruct (forallb acceptedElement (elements (field "detections" data))).
      + destruct Hds as (ds' & ->). cbn [bind].
        do 3 (rewrite (get_field data _ Hu Hn); cbn [bind]). eauto.
      + now rewrite Hds.
    - do 3 (rewrite (get_field data _ Hu Hn); cbn [bind]). eauto. }
  destruct data; try reflexivity; apply Hmain; discriminate.
Qed.

(** An element that is neither [null] nor [undefined] and has none of the
    fields (a number, a string, a boolean, an array, an empty object)
    degrades to the defaults. *)
Lemma processDetection_defaults (d : value) :
  d <> VUndef -> d <> VNull ->
  (forall k, field k d = VUndef) ->
  processDetection d = Normal defaultDetection.
Proof.
  intros Hu Hn Hf. unfold processDetection.
  repeat (rewrite (get_field d _ Hu Hn), Hf; cbn [bind]).
  reflexivity.
Qed.

Example processDetection_primitives :
  map processDetection [VNum 5; VStr "x"; VBool true; VArr []; VObj []]
  = map (fun _ => Normal defaultDetection) [1; 2; 3; 4; 5]%nat.
Proof. reflexivity. Qed.

Lemma processDetection_null :
  processDetection VNull = Throw TypeError
  /\ processDetection VUndef = Throw TypeError.
Proof. split; reflexivity. Qed.

(** C2, at the failing input: a [null] element makes the normalisation
    throw, in both components; the request handler catches the exception,
    announces a failure and displays no result, so the well-formed first
    detection of the response is discarded with it. *)
Theorem null_detection_discards_response (iso : string) (st : State) :
  processedResult iso nullElementResponse = Throw TypeError
  /\ processedResultWithoutSize nullElementResponse = Throw TypeError
  /\ result (state (sendToBackend (Resolved nullElementResponse) iso st)) = None
  /\ alerts (sendToBackend (Resolved nullElementResponse) iso st)
     = ["Detection failed. Please try again."].
Proof. repeat split. Qed.

(** ** The count *)

(** The normalised count is [count || 0] on the raw value. *)
Lemma processedResult_count (t : string) (data r : value) :
  processedResult t data = Normal r ->
  field "count" r = or (field "count" data) (VNum 0).
Proof.
  intros H. apply processedResult_Normal in H. destruct H as (ds & _ & ->).
  reflexivity.
Qed.

(** On a raw count that is a number or absent this is the coerced
    count. *)
Lemma processedResult_count_number (t : string) (data r : value) :
  processedResult t data = Normal r ->
  (exists n, field "count" data = VNum n)
  \/ field "count" data = VUndef \/ field "count" data = VNull ->
  coercedCount data = Normal (field "count" r).
Proof.
  intros H Hc. rewrite (processedResult_count t data r H).
  unfold processedResult in H. invert_bind H.
  destruct (get_Normal _ _ _ Hv) as (-> & Hu & Hn).
  unfold coercedCount. rewrite (get_field data _ Hu Hn). cbn [bind].
  destruct Hc as [[n ->] | [-> | ->]].
  - rewrite Number_VNum. cbn [bind]. unfold or, orZero. cbn [ToBoolean].
    now destruct (truthyNum n).
  - reflexivity.
  - reflexivity.
Qed.

(** The count does not depend on the detections: a count of 3 with no
    detection stays 3. *)
Example processedResult_miscount (t : string) :
  exists r, processedResult t miscountResponse = Normal r
            /\ field "count" r = VNum 3
            /\ field "detections" r = VArr [].
Proof. eexists. repeat split. Qed.

(** C5, at the failing input: the raw count ["abc"] is not a number; its
    numeric coercion is [NaN], so the coerced count is 0, but the
    normalised result carries the string itself, in both components. *)
Theorem count_is_not_coerced (t : string) :
  coercedCount stringCountResponse = Normal (VNum 0)
  /\ (exists r, processedResult t stringCountResponse = Normal r
                /\ field "count" r = VStr "abc")
  /\ (exists r, processedResultWithoutSize stringCountResponse = Normal r
                /\ field "count" r = VStr "abc").
Proof.
  split; [vm_compute; reflexivity|].
  split; eexists; split; reflexivity.
Qed.

(* ===================================================================== *)
(** * The request, its closure and the deferred save *)
(* ===================================================================== *)

Lemma history_sendToBackendSettle (ci : option string) (resp : response)
    (iso : string) (st : State) :
  history (state (sendToBackendSettle ci resp iso st)) = history st
  /\ storage (state (sendToBackendSettle ci resp iso st)) = storage st.
Proof.
  unfold sendToBackendSettle. destruct resp as [|data]; [now split|].
  destruct (processedResult iso data); now split.
Qed.

Lemma deferredSave_sendToBackendSettle (ci : option string) (resp : response)
    (iso : string) (st : State) (p : value * option string) :
  deferredSave (sendToBackendSettle ci resp iso st) = Some p -> snd p = ci.
Proof.
  unfold sendToBackendSettle. destruct resp as [|data]; [discriminate|].
  destruct (processedResult iso data); [|discriminate].
  cbn. now intros [= <-].
Qed.

(** The image the deferred save of a capture sees is the image of the
    render in which the button was pressed. *)
Lemma deferredSave_capture (imageSrc : option string) (resp : response)
    (iso : string) (st : State) (p : value * option string) :
  deferredSave (capture imageSrc resp iso st) = Some p -> snd p = image st.
Proof.
  unfold capture. destruct imageSrc as [src|]; [|discriminate].
  destruct (negb (String.eqb src "")); [|discriminate].
  apply deferredSave_sendToBackendSettle.
Qed.

(** A capture is never saved automatically: the capture button is shown
    only while no image is displayed, the deferred save tests the
    [image] of that render, not the screenshot, and so it does nothing,
    whatever the response and whatever happened in between. *)
Theorem capture_is_never_saved (st : State) (imageSrc : option string)
    (resp : response) (iso : string) (p : value * option string)
    (closureHistory : list HistoryItem.t) (ms : Z) (clock : Clock) (st' : State) :
  noImage st = true ->
  deferredSave (capture imageSrc resp iso st) = Some p ->
  runDeferredSave closureHistory p ms clock st' = st'.
Proof.
  intros Hno Hp. apply deferredSave_capture in Hp.
  unfold runDeferredSave. rewrite Hp. unfold noImage in Hno.
  destruct (image st) as [img|]; [|reflexivity].
  now rewrite Hno.
Qed.

(** Witness of [capture_is_never_saved]: the first capture after a
    mount, with a successful response. *)
Lemma capture_is_never_saved_witness :
  noImage (mount None) = true
  /\ exists p,
       deferredSave (capture (Some "data:image/jpeg;base64,AAAA")
                       (Resolved sampleResponse) "2025-01-01T10:00:00.000Z"
                       (mount None)) = Some p
       /\ runDeferredSave [] p 1735725600500 (sampleClock 1735725600500)
            capturedState = capturedState.
Proof.
  split; [reflexivity|].
  eexists. split; [vm_compute; reflexivity|].
  refine (capture_is_never_saved (mount None) (Some "data:image/jpeg;base64,AAAA")
            (Resolved sampleResponse) "2025-01-01T10:00:00.000Z" _ [] _ _ _ _ _);
    vm_compute; reflexivity.
Defined.

Lemma history_saveToHistoryFrom (h : list HistoryItem.t) (clock : Clock)
    (r : value) (img name : string) (st : State) :
  history (saveToHistoryFrom h clock r img name st)
  = historyItem clock r img name :: firstn 49 h.
Proof. unfold saveToHistoryFrom. now rewrite history_setHistory. Qed.

(** "Upload New" while an image is displayed: the request is made for
    the new image, which becomes the displayed one, but the entry that
    the deferred save puts in front of the history carries the new
    result with the image displayed before. *)
Theorem upload_is_saved_with_previous_image (st : State) (imageUrl : string)
    (data r : value) (iso old : string) (ms : Z) (clock : Clock) (st' : State) :
  image st = Some old -> old <> "" ->
  processedResult iso data = Normal r ->
  image (state (handleUpload imageUrl (Resolved data) iso st)) = Some imageUrl
  /\ result (state (handleUpload imageUrl (Resolved data) iso st)) = Some r
  /\ deferredSave (handleUpload imageUrl (Resolved data) iso st) = Some (r, Some old)
  /\ exists item,
       history (runDeferredSave (history st) (r, Some old) ms clock st')
       = item :: firstn 49 (history st)
       /\ HistoryItem.result item = r
       /\ HistoryItem.imageData item = old.
Proof.
  intros Himg Hold Hr.
  unfold handleUpload, sendToBackendSettle. rewrite Hr, Himg.
  repeat split.
  unfold runDeferredSave. cbn [snd fst].
  destruct (String.eqb_spec old "") as [|_]; [contradiction|]. cbn [negb].
  rewrite history_saveToHistoryFrom. eexists. repeat split.
Qed.

(** Witness of [upload_is_saved_with_previous_image]. *)
Lemma upload_is_saved_with_previous_image_witness :
  image capturedState = Some "data:image/jpeg;base64,AAAA"
  /\ "data:image/jpeg;base64,AAAA" <> ""
  /\ exists r,
       processedResult "2025-01-01T10:05:00.000Z" miscountResponse = Normal r
       /\ deferredSave (handleUpload "blob:next" (Resolved miscountResponse)
                          "2025-01-01T10:05:00.000Z" capturedState)
          = Some (r, Some "data:image/jpeg;base64,AAAA").
Proof.
  split; [reflexivity|]. split; [discriminate|].
  eexists. split; [vm_compute; reflexivity|].
  refine (proj1 (proj2 (proj2
    (upload_is_saved_with_previous_image capturedState "blob:next"
       miscountResponse _ "2025-01-01T10:05:00.000Z"
       "data:image/jpeg;base64,AAAA" 0 (sampleClock 0) capturedState
       _ _ _)))); [reflexivity | discriminate | vm_compute; reflexivity].
Defined.

(** A deletion made while a request is in flight is undone by the
    deferred save of that request: the save rebuilds the history from
    the one its closure captured, so an entry deleted in between is back
    (unless it was the fiftieth, which the cap drops). *)
Theorem deferred_save_undoes_deletion (st : State) (imageUrl : string)
    (data r : value) (iso old id : string) (ms : Z) (clock : Clock)
    (item : HistoryItem.t) :
  image st = Some old -> old <> "" ->
  processedResult iso data = Normal r ->
  In item (firstn 49 (history st)) -> HistoryItem.id item = id ->
  ~ In item (history (deleteHistoryItem id
                        (state (handleUpload imageUrl (Resolved data) iso st))))
  /\ In item (history (runDeferredSave (history st) (r, Some old) ms clock
                         (deleteHistoryItem id
                            (state (handleUpload imageUrl (Resolved data) iso st))))).
Proof.
  intros Himg Hold Hr Hin Hid. split.
  - unfold deleteHistoryItem. rewrite history_setHistory, filter_In.
    intros [_ Hkeep]. rewrite Hid, String.eqb_refl in Hkeep. discriminate.
  - unfold runDeferredSave. cbn [snd fst].
    destruct (String.eqb_spec old "") as [|_]; [contradiction|]. cbn [negb].
    rewrite history_saveToHistoryFrom. now right.
Qed.

(** Witness of [deferred_save_undoes_deletion]: the one saved entry is
    deleted while an upload is in flight. *)
Lemma deferred_save_undoes_deletion_witness :
  image galleryState = Some "blob:previous"
  /\ "blob:previous" <> ""
  /\ In (itemOf (sampleRequest 0)) (firstn 49 (history galleryState))
  /\ history (deleteHistoryItem "1735725600000"
                (state (handleUpload "blob:next" (Resolved miscountResponse)
                          "2025-01-01T10:05:00.000Z" galleryState))) = []
  /\ exists r,
       processedResult "2025-01-01T10:05:00.000Z" miscountResponse = Normal r
       /\ In (itemOf (sampleRequest 0))
            (history (runDeferredSave (history galleryState) (r, Some "blob:previous")
                        1735725900500 (sampleClock 1735725900500)
                        (deleteHistoryItem "1735725600000"
                           (state (handleUpload "blob:next" (Resolved miscountResponse)
                                     "2025-01-01T10:05:00.000Z" galleryState))))).
Proof.
  assert (Hin : In (itemOf (sampleRequest 0)) (firstn 49 (history galleryState)))
    by (left; reflexivity).
  split; [reflexivity|]. split; [discriminate|]. split; [exact Hin|].
  split; [reflexivity|].
  eexists. split; [vm_compute; reflexivity|].
  refine (proj2 (deferred_save_undoes_deletion galleryState "blob:next"
                   miscountResponse _ "2025-01-01T10:05:00.000Z" "blob:previous"
                   "1735725600000" 1735725900500 (sampleClock 1735725900500)
                   (itemOf (sampleRequest 0)) _ _ _ Hin _));
    [reflexivity | discriminate | vm_compute; reflexivity | reflexivity].
Defined.

(* ===================================================================== *)
(** * Invariants of the history store *)
(* ===================================================================== *)

Lemma historyInvariant_setHistory (h : list HistoryItem.t) (st : State) :
  (List.length h <= 50)%nat ->
  historyInvariant st -> historyInvariant (setHistory h st).
Proof.
  intros Hlen (_ & _ & Hslot). unfold historyInvariant.
  rewrite history_setHistory, storage_setHistory.
  split; [exact Hlen|]. split.
  - destruct h; [now intros []|reflexivity].
  - intros h'. destruct h as [|x h].
    + apply Hslot.
    + intros [= <-]. split; [discriminate | exact Hlen].
Qed.

(** A handler that leaves the history and the slot alone keeps the
    invariant. *)
Lemma historyInvariant_same (st st' : State) :
  history st' = history st -> storage st' = storage st ->
  historyInvariant st -> historyInvariant st'.
Proof. unfold historyInvariant. now intros -> ->. Qed.

Lemma length_updatedHistory (item : HistoryItem.t) (h : list HistoryItem.t) :
  (List.length (updatedHistory item h) <= 50)%nat.
Proof. unfold updatedHistory. rewrite length_firstn. lia. Qed.

Lemma historyInvariant_mount (slot : option (list HistoryItem.t)) :
  (forall h, slot = Some h -> h <> [] /\ (List.length h <= 50)%nat) ->
  historyInvariant (mount slot).
Proof.
  intros Hslot. unfold mount, loadHistory. cbn [storage setStorage].
  destruct slot as [h|].
  - destruct (Hslot h eq_refl) as [Hne Hlen].
    apply historyInvariant_setHistory; [now rewrite length_map|].
    unfold historyInvariant. cbn. split; [lia|]. split; [now intros []|].
    intros h' [= <-]. now split.
  - unfold historyInvariant. cbn. split; [lia|]. split; [now intros []|].
    discriminate.
Qed.

Lemma reachable_historyInvariant (st : State) :
  reachable st -> historyInvariant st.
Proof.
  induction 1 as [ | st _ IH | st imageSrc resp iso _ IH
                 | st imageUrl resp iso _ IH
                 | st0 st r ms clock _ IH0 _ IH | st w h _ IH | st _ IH
                 | st ms clock _ IH | st item _ IH _ | st id _ IH
                 | st confirmed _ IH ].
  - apply historyInvariant_mount. discriminate.
  - apply historyInvariant_mount. apply IH.
  - unfold capture. destruct imageSrc as [src|]; [|exact IH].
    destruct (negb (String.eqb src "")); [|exact IH].
    eapply historyInvariant_same; [| |exact IH].
    + now rewrite (proj1 (history_sendToBackendSettle _ _ _ _)).
    + now rewrite (proj2 (history_sendToBackendSettle _ _ _ _)).
  - unfold handleUpload.
    eapply historyInvariant_same; [| |exact IH].
    + now rewrite (proj1 (history_sendToBackendSettle _ _ _ _)).
    + now rewrite (proj2 (history_sendToBackendSettle _ _ _ _)).
  - unfold runDeferredSave. cbn [snd fst].
    destruct (image st0) as [img|]; [|exact IH].
    destruct (negb (String.eqb img "")); [|exact IH].
    apply historyInvariant_setHistory; [apply length_updatedHistory | exact IH].
  - exact IH.
  - exact IH.
  - unfold saveCurrentResult.
    destruct (result st) as [r|]; [|exact IH].
    destruct (image st) as [img|]; [|exact IH].
    destruct (negb (String.eqb img "")); [|exact IH].
    cbn [fst]. apply historyInvariant_setHistory;
      [apply length_updatedHistory | exact IH].
  - exact IH.
  - apply historyInvariant_setHistory; [|exact IH].
    pose proof (filter_length_le
                  (fun item => negb (String.eqb (HistoryItem.id item) id))
                  (history st)) as Hle.
    pose proof (proj1 IH). lia.
  - destruct confirmed; [|exact IH].
    unfold historyInvariant. cbn. split; [lia|]. split; [now intros []|].
    discriminate.
Qed.

(** The cap is an invariant: whatever the sequence of captures, uploads,
    deferred and manual saves, deletions, clears and reloads, the history
    never holds more than 50 entries. *)
Theorem history_never_exceeds_cap (st : State) :
  reachable st -> (List.length (history st) <= 50)%nat.
Proof. intros H. exact (proj1 (reachable_historyInvariant st H)). Qed.


Lemma reachable_savedState : reachable savedState.
Proof. apply reach_save, reach_capture, reach_mount. Qed.

(** Witness of [history_never_exceeds_cap]. *)
Lemma history_never_exceeds_cap_witness :
  reachable savedState /\ (List.length (history savedState) <= 50)%nat.
Proof.
  split; [exact reachable_savedState|].
  exact (history_never_exceeds_cap savedState reachable_savedState).
Defined.


(* ===================================================================== *)
(** * Pages of the history panel *)
(* ===================================================================== *)

Lemma firstn_add {A} (a b : nat) (l : list A) :
  firstn (a + b) l = firstn a l ++ firstn b (skipn a l).
Proof.
  revert l. induction a as [|a IH]; intros l; [reflexivity|].
  destruct l as [|x l]; cbn [Nat.add firstn skipn app].
  - now rewrite firstn_nil.
  - now rewrite IH.
Qed.

Lemma firstn_min_length {A} (n : nat) (l : list A) :
  firstn (Nat.min n (List.length l)) l = firstn n l.
Proof.
  destruct (Nat.le_ge_cases n (List.length l)) as [H|H].
  - now rewrite Nat.min_l.
  - rewrite Nat.min_r by exact H. now rewrite !firstn_all2 by lia.
Qed.

(** A slice at non-negative indices. *)
Lemma slice_firstn_skipn {A} (s n : nat) (l : list A) :
  slice (Z.of_nat s) (Z.of_nat s + Z.of_nat n) l = firstn n (skipn s l).
Proof.
  unfold slice.
  destruct (Z.ltb_spec (Z.of_nat s) 0) as [H|_]; [lia|].
  destruct (Z.ltb_spec (Z.of_nat s + Z.of_nat n) 0) as [H|_]; [lia|].
  destruct (Nat.le_gt_cases s (List.length l)) as [Hs|Hs].
  - rewrite (Z.min_l (Z.of_nat s)) by lia. rewrite Nat2Z.id.
    rewrite <- (firstn_min_length n (skipn s l)), length_skipn.
    f_equal. lia.
  - rewrite (Z.min_r (Z.of_nat s)) by lia. rewrite Nat2Z.id.
    rewrite !skipn_all2 by lia. now rewrite !firstn_nil.
Qed.

Lemma paginatedHistory_nat (h : list HistoryItem.t) (p : nat) :
  paginatedHistory h (Z.of_nat p) = firstn 4 (skipn (4 * p) h).
Proof.
  unfold paginatedHistory, itemsPerPage.
  replace (Z.of_nat p * 4)%Z with (Z.of_nat (4 * p)) by lia.
  exact (slice_firstn_skipn (4 * p) 4 h).
Qed.

Lemma length_paginatedHistory (h : list HistoryItem.t) (page : Z) :
  (List.length (paginatedHistory h page) <= 4)%nat.
Proof.
  unfold paginatedHistory, slice, itemsPerPage. rewrite length_firstn.
  etransitivity; [apply Nat.le_min_l|].
  destruct (Z.ltb_spec (page * 4) 0), (Z.ltb_spec (page * 4 + 4) 0); lia.
Qed.

(** [totalPages] is the least number of pages of four that hold the
    history. *)
Lemma totalPages_bounds (h : list HistoryItem.t) :
  (4 * (totalPages h - 1) < Z.of_nat (List.length h) <= 4 * totalPages h)%Z.
Proof.
  unfold totalPages, totalPagesOf, itemsPerPage.
  pose proof (Z.div_mod (Z.of_nat (List.length h)) 4 ltac:(lia)) as Hdm.
  pose proof (Z.mod_pos_bound (Z.of_nat (List.length h)) 4 ltac:(lia)) as Hb.
  destruct (Z.eqb_spec (Z.of_nat (List.length h) mod 4) 0); lia.
Qed.

Lemma totalPages_nonneg (h : list HistoryItem.t) : (0 <= totalPages h)%Z.
Proof. pose proof (totalPages_bounds h). lia. Qed.

Lemma paginatedHistory_empty (h : list HistoryItem.t) (p : nat) :
  paginatedHistory h (Z.of_nat p) = [] <-> (totalPages h <= Z.of_nat p)%Z.
Proof.
  rewrite paginatedHistory_nat. pose proof (totalPages_bounds h) as Hb.
  split.
  - intros He. apply (f_equal (@List.length _)) in He.
    rewrite length_firstn, length_skipn in He. cbn [List.length] in He. lia.
  - intros Hp. rewrite skipn_all2 by lia. reflexivity.
Qed.

Lemma concat_pages (h : list HistoryItem.t) (n : nat) :
  concat (map (fun p => paginatedHistory h (Z.of_nat p)) (seq 0 n))
  = firstn (4 * n) h.
Proof.
  induction n as [|n IH]; [reflexivity|].
  rewrite seq_S, map_app, concat_app, IH. cbn [map concat Nat.add].
  rewrite app_nil_r, paginatedHistory_nat.
  replace (4 * S n)%nat with (4 * n + 4)%nat by lia.
  now rewrite firstn_add.
Qed.

(** The pages 0 .. [totalPages] - 1 put end to end are the history:
    every entry is shown on exactly one page, in order. *)
Theorem pages_partition_history (h : list HistoryItem.t) :
  concat (map (fun p => paginatedHistory h (Z.of_nat p))
              (seq 0 (Z.to_nat (totalPages h)))) = h.
Proof.
  rewrite concat_pages. apply firstn_all2.
  pose proof (totalPages_bounds h). lia.
Qed.

(** A page holds at most four entries, whatever the page number, and a
    page at or after [totalPages] is empty while every page before it is
    not. *)
Theorem page_size_and_end (h : list HistoryItem.t) (page : Z) :
  (List.length (paginatedHistory h page) <= 4)%nat
  /\ ((0 <= page)%Z ->
      (paginatedHistory h page = [] <-> (totalPages h <= page)%Z)).
Proof.
  split.
  - apply length_paginatedHistory.
  - intros Hp. rewrite <- (Z2Nat.id page Hp). apply paginatedHistory_empty.
Qed.

(** Witness of [page_size_and_end]: five entries, the page after the
    last one. *)
Lemma page_size_and_end_witness :
  (0 <= 2)%Z
  /\ totalPages (history (ui secondPageScreen)) = 2%Z
  /\ paginatedHistory (history (ui secondPageScreen)) 2 = [].
Proof.
  split; [lia|]. split; [reflexivity|].
  apply (proj2 (page_size_and_end (history (ui secondPageScreen)) 2) ltac:(lia)).
  vm_compute. discriminate.
Defined.

(** From a page that exists, [Previous] and [Next] lead to a page that
    exists and is not empty; [Next] stays on the last page and
    [Previous] on the first. *)
Theorem navigation_stays_on_pages (h : list HistoryItem.t) (page : Z) :
  (0 <= page < totalPages h)%Z ->
  (0 <= previousPage page < totalPages h)%Z
  /\ (0 <= nextPage h page < totalPages h)%Z
  /\ paginatedHistory h (previousPage page) <> []
  /\ paginatedHistory h (nextPage h page) <> [].
Proof.
  intros Hp. unfold previousPage, nextPage.
  assert (H1 : (0 <= Z.max 0 (page - 1) < totalPages h)%Z) by lia.
  assert (H2 : (0 <= Z.min (totalPages h - 1) (page + 1) < totalPages h)%Z) by lia.
  split; [exact H1|]. split; [exact H2|]. split.
  - rewrite <- (Z2Nat.id (Z.max 0 (page - 1))) by lia.
    rewrite paginatedHistory_empty. rewrite Z2Nat.id by lia. lia.
  - rewrite <- (Z2Nat.id (Z.min (totalPages h - 1) (page + 1))) by lia.
    rewrite paginatedHistory_empty. rewrite Z2Nat.id by lia. lia.
Qed.

(** Witness of [navigation_stays_on_pages]: [Next] on the last page. *)
Lemma navigation_stays_on_pages_witness :
  (0 <= 1 < totalPages (history (ui secondPageScreen)))%Z
  /\ nextPage (history (ui secondPageScreen)) 1 = 1%Z
  /\ paginatedHistory (history (ui secondPageScreen))
       (nextPage (history (ui secondPageScreen)) 1) <> [].
Proof.
  assert (H : (0 <= 1 < totalPages (history (ui secondPageScreen)))%Z)
    by (vm_compute; split; [discriminate | reflexivity]).
  split; [exact H|]. split; [reflexivity|].
  apply (navigation_stays_on_pages _ 1 H).
Defined.

Lemma filter_last_unique (h : list HistoryItem.t) (x : HistoryItem.t) :
  ~ In (HistoryItem.id x) (map HistoryItem.id h) ->
  filter (fun item => negb (String.eqb (HistoryItem.id item) (HistoryItem.id x)))
         (h ++ [x]) = h.
Proof.
  intros Hnotin. rewrite filter_app. cbn [filter].
  rewrite String.eqb_refl. cbn [negb]. rewrite app_nil_r.
  apply forallb_filter_id, forallb_forall. intros item Hin.
  apply negb_true_iff. destruct (String.eqb_spec (HistoryItem.id item) (HistoryItem.id x)) as [He|];
    [|reflexivity].
  exfalso. apply Hnotin. rewrite <- He. now apply in_map.
Qed.

(** Deleting the only entry of the last page leaves the panel on a page
    that no longer exists: the history is not empty, but the page shown
    is, because no history handler updates [currentHistoryPage]. *)
Theorem deleting_last_page_entry_shows_empty_page (sc : Screen)
    (h : list HistoryItem.t) (x : HistoryItem.t) (p : nat) :
  history (ui sc) = h ++ [x] ->
  List.length h = (4 * p)%nat -> (1 <= p)%nat ->
  currentHistoryPage sc = Z.of_nat p ->
  ~ In (HistoryItem.id x) (map HistoryItem.id h) ->
  shownPage sc = [x]
  /\ history (ui (deleteOnScreen (HistoryItem.id x) sc)) = h
  /\ h <> []
  /\ shownPage (deleteOnScreen (HistoryItem.id x) sc) = []
  /\ totalPages (history (ui (deleteOnScreen (HistoryItem.id x) sc)))
     = currentHistoryPage (deleteOnScreen (HistoryItem.id x) sc).
Proof.
  intros Hh Hlen Hp Hpage Hnotin.
  assert (Hdel : history (ui (deleteOnScreen (HistoryItem.id x) sc)) = h).
  { cbn [deleteOnScreen ui]. unfold deleteHistoryItem.
    rewrite history_setHistory, Hh. now apply filter_last_unique. }
  assert (Htotal : totalPages h = Z.of_nat p).
  { pose proof (totalPages_bounds h). lia. }
  split; [|split; [exact Hdel|split; [|split]]].
  - unfold shownPage. rewrite Hpage, paginatedHistory_nat, Hh, <- Hlen.
    rewrite skipn_app, skipn_all, Nat.sub_diag. reflexivity.
  - intros ->. cbn in Hlen. lia.
  - unfold shownPage. rewrite Hdel. cbn [deleteOnScreen currentHistoryPage].
    rewrite Hpage. apply paginatedHistory_empty. lia.
  - rewrite Hdel. cbn [deleteOnScreen currentHistoryPage]. now rewrite Hpage.
Qed.

(** Witness of [deleting_last_page_entry_shows_empty_page]: five
    entries, the fifth alone on the second page. *)
Lemma deleting_last_page_entry_shows_empty_page_witness :
  history (ui secondPageScreen)
  = map itemOf (rev (map sampleRequest (seq 1 4))) ++ [itemOf (sampleRequest 0)]
  /\ shownPage secondPageScreen = [itemOf (sampleRequest 0)]
  /\ shownPage (deleteOnScreen "1735725600000" secondPageScreen) = []
  /\ List.length (history (ui (deleteOnScreen "1735725600000" secondPageScreen)))
     = 4%nat.
Proof.
  assert (Hh : history (ui secondPageScreen)
               = map itemOf (rev (map sampleRequest (seq 1 4)))
                 ++ [itemOf (sampleRequest 0)]) by reflexivity.
  destruct (deleting_last_page_entry_shows_empty_page secondPageScreen
              (map itemOf (rev (map sampleRequest (seq 1 4))))
              (itemOf (sampleRequest 0)) 1 Hh eq_refl (le_n 1) eq_refl)
    as (Hshown & Hdel & _ & Hempty & _).
  { vm_compute. intuition discriminate. }
  split; [exact Hh|]. split; [exact Hshown|]. split; [exact Hempty|].
  change "1735725600000" with (HistoryItem.id (itemOf (sampleRequest 0))).
  now rewrite Hdel.
Defined.

(* ===================================================================== *)
(** * The persisted history across a reload *)
(* ===================================================================== *)

(** Induction over values, through arrays and objects. *)
Lemma value_nested_ind (P : value -> Prop) :
  P VUndef -> P VNull -> (forall b, P (VBool b)) -> (forall n, P (VNum n)) ->
  (forall s, P (VStr s)) ->
  (forall elems, Forall P elems -> P (VArr elems)) ->
  (forall props, Forall (fun p => P (snd p)) props -> P (VObj props)) ->
  forall v, P v.
Proof.
  intros Hu Hn Hb Hnum Hs Ha Ho.
  fix IH 1. intros [| | b | n | s | elems | props].
  - exact Hu.
  - exact Hn.
  - apply Hb.
  - apply Hnum.
  - apply Hs.
  - apply Ha. induction elems as [|x elems IHl]; constructor; [apply IH | exact IHl].
  - apply Ho. induction props as [|[k x] props IHl]; constructor;
      [apply IH | exact IHl].
Qed.

Lemma jsonRoundTrip_VNum (n : float) :
  jsonRoundTrip (jsonRoundTrip (VNum n)) = jsonRoundTrip (VNum n).
Proof.
  cbn [jsonRoundTrip]. destruct (is_finite n) eqn:Hf; [|reflexivity].
  destruct (n =? 0)%float eqn:Hz; [reflexivity|].
  cbn [jsonRoundTrip]. now rewrite Hf, Hz.
Qed.

Lemma jsonRoundTrip_VUndef (v : value) : jsonRoundTrip v = VUndef -> v = VUndef.
Proof.
  destruct v; cbn [jsonRoundTrip]; try discriminate; [reflexivity|].
  destruct (is_finite n); [|discriminate]. now destruct (n =? 0)%float.
Qed.

Lemma jsonRoundTrip_VArr (elems : list value) :
  jsonRoundTrip (VArr elems) = VArr (map keptElement elems).
Proof. reflexivity. Qed.

Lemma jsonRoundTrip_VObj (props : list (string * value)) :
  jsonRoundTrip (VObj props) = VObj (flat_map keptProperty props).
Proof. reflexivity. Qed.

Lemma keptElement_idempotent (x : value) :
  jsonRoundTrip (jsonRoundTrip x) = jsonRoundTrip x ->
  keptElement (keptElement x) = keptElement x.
Proof.
  intros Hx. destruct x; try reflexivity; try exact Hx.
  unfold keptElement at 2.
  pose proof (jsonRoundTrip_VUndef (VNum n)) as Hne.
  unfold keptElement. destruct (jsonRoundTrip (VNum n)) eqn:E; try exact Hx.
  discriminate (Hne eq_refl).
Qed.

Lemma keptProperty_idempotent (k : string) (x : value) :
  jsonRoundTrip (jsonRoundTrip x) = jsonRoundTrip x ->
  flat_map keptProperty (keptProperty (k, x)) = keptProperty (k, x).
Proof.
  intros Hx.
  assert (Hkeep : forall y, y <> VUndef ->
            jsonRoundTrip (jsonRoundTrip y) = jsonRoundTrip y ->
            flat_map keptProperty [(k, jsonRoundTrip y)] = [(k, jsonRoundTrip y)]).
  { intros y Hy Hyy. cbn [flat_map keptProperty app].
    pose proof (jsonRoundTrip_VUndef y) as Hne.
    destruct (jsonRoundTrip y) eqn:E; try (now rewrite Hyy).
    now specialize (Hne eq_refl). }
  destruct x; try reflexivity; apply Hkeep; try discriminate; exact Hx.
Qed.

(** Serialising and parsing twice is the same as once. *)
Lemma jsonRoundTrip_idempotent (v : value) :
  jsonRoundTrip (jsonRoundTrip v) = jsonRoundTrip v.
Proof.
  induction v as [| | b | n | s | elems IH | props IH] using value_nested_ind;
    try reflexivity.
  - apply jsonRoundTrip_VNum.
  - rewrite !jsonRoundTrip_VArr. f_equal. rewrite map_map.
    induction IH as [|x elems Hx _ IHl]; [reflexivity|].
    cbn [map]. f_equal; [now apply keptElement_idempotent | exact IHl].
  - rewrite !jsonRoundTrip_VObj. f_equal.
    induction IH as [|[k x] props Hx _ IHl]; [reflexivity|].
    cbn [snd] in Hx. cbn [flat_map].
    rewrite flat_map_app, IHl. f_equal. now apply keptProperty_idempotent.
Qed.

Lemma history_mount (slot : option (list HistoryItem.t)) :
  history (mount slot) = match slot with Some h => map revive h | None => [] end.
Proof.
  unfold mount, loadHistory. cbn [storage setStorage].
  destruct slot as [h|]; [|reflexivity]. now rewrite history_setHistory.
Qed.

(** Deleting the last remaining entry does not survive a reload: the
    slot still holds the history as it was before the deletion, and the
    next mount reads it back, whereas after "Clear All" the history stays
    empty. *)
Theorem deleted_last_entry_returns_on_reload (st : State) (id : string) :
  reachable st ->
  history st <> [] ->
  history (deleteHistoryItem id st) = [] ->
  history (reload (deleteHistoryItem id st)) = map revive (history st)
  /\ history (reload (deleteHistoryItem id st)) <> []
  /\ history (reload (clearAllHistory true st)) = [].
Proof.
  intros Hreach Hne Hdel.
  pose proof (proj1 (proj2 (reachable_historyInvariant st Hreach)) Hne) as Hsync.
  assert (Hh : history (reload (deleteHistoryItem id st)) = map revive (history st)).
  { unfold reload. rewrite history_mount.
    now rewrite (deleteHistoryItem_last_entry_stale id st Hdel), Hsync. }
  split; [exact Hh|]. split; [|reflexivity].
  rewrite Hh. destruct (history st); [contradiction | discriminate].
Qed.

(** Witness of [deleted_last_entry_returns_on_reload]. *)
Lemma deleted_last_entry_returns_on_reload_witness :
  reachable savedState
  /\ history savedState <> []
  /\ history (deleteHistoryItem "1735725600000" savedState) = []
  /\ List.length (history (reload (deleteHistoryItem "1735725600000" savedState)))
     = 1%nat.
Proof.
  assert (Hne : history savedState <> []) by (vm_compute; discriminate).
  assert (Hdel : history (deleteHistoryItem "1735725600000" savedState) = [])
    by (vm_compute; reflexivity).
  split; [exact reachable_savedState|]. split; [exact Hne|]. split; [exact Hdel|].
  rewrite (proj1 (deleted_last_entry_returns_on_reload savedState "1735725600000"
                    reachable_savedState Hne Hdel)).
  vm_compute. reflexivity.
Defined.

Lemma orZero_keptElement (n : float) :
  is_infinity n = false ->
  orZero (numeric (keptElement (VNum n))) = orZero n.
Proof.
  intros Hinf. cbn [keptElement jsonRoundTrip]. unfold is_finite. rewrite Hinf.
  rewrite orb_false_r. destruct (is_nan n) eqn:Hnan; cbn [negb].
  - cbn [numeric]. symmetry. now apply orZero_NaN.
  - destruct (n =? 0)%float eqn:Hz; [|reflexivity].
    cbn [numeric]. unfold orZero at 2, truthyNum. now rewrite Hz.
Qed.

Lemma hidesToString_keptElement (n : float) :
  hidesToString (keptElement (VNum n)) = false.
Proof.
  cbn [keptElement jsonRoundTrip]. destruct (is_finite n); [|reflexivity].
  now destruct (n =? 0)%float.
Qed.

(** A box read back from the persisted history is parsed to the same
    four numbers as before it was persisted, provided none of its
    components is infinite: [NaN] is stored as [null] and both parse to
    0, [-0] is stored as [0]. *)
Theorem parseBbox_survives_reload (ns : list float) :
  Forall (fun n => is_infinity n = false) ns ->
  parseBbox (jsonRoundTrip (VArr (map VNum ns))) = parseBbox (VArr (map VNum ns)).
Proof.
  intros Hfin. rewrite jsonRoundTrip_VArr, map_map.
  destruct ns as [|a [|b [|c [|d rest]]]]; try reflexivity.
  inversion Hfin as [|? ? Ha Hfin1]; subst.
  inversion Hfin1 as [|? ? Hb Hfin2]; subst.
  inversion Hfin2 as [|? ? Hc Hfin3]; subst.
  inversion Hfin3 as [|? ? Hd _]; subst.
  unfold parseBbox, malformedBbox.
  cbn [map elements List.length ToBoolean isArray negb orb Nat.ltb Nat.leb index nth].
  rewrite !(Number_Normal _ (hidesToString_keptElement _)), !Number_VNum.
  cbn [bind].
  now rewrite (orZero_keptElement a Ha), (orZero_keptElement b Hb),
              (orZero_keptElement c Hc), (orZero_keptElement d Hd).
Qed.

(** Witness of [parseBbox_survives_reload]. *)
Lemma parseBbox_survives_reload_witness :
  Forall (fun n => is_infinity n = false) [0.25; nan; (-0); 120]%float
  /\ parseBbox (jsonRoundTrip (VArr (map VNum [0.25; nan; (-0); 120]%float)))
     = parseBbox (VArr (map VNum [0.25; nan; (-0); 120]%float)).
Proof.
  assert (H : Forall (fun n => is_infinity n = false) [0.25; nan; (-0); 120]%float)
    by (repeat constructor).
  split; [exact H|]. exact (parseBbox_survives_reload _ H).
Defined.

Example parseBbox_infinite_after_reload :
  parseBbox (VArr [VNum infinity; VNum 0; VNum 0; VNum 0])
  <> parseBbox (jsonRoundTrip (VArr [VNum infinity; VNum 0; VNum 0; VNum 0])).
Proof. vm_compute. discriminate. Qed.

(* ===================================================================== *)
(** * What a normalised result guarantees to its consumers *)
(* ===================================================================== *)

Lemma numberArray_Normal_inv (b b' : value) :
  numberArray b = Normal b' ->
  exists ns, b' = VArr (map VNum ns)
             /\ (isArray b = true -> List.length ns = List.length (elements b)).
Proof.
  unfold numberArray. destruct (isArray b).
  - intros H. invert_bind H. injection H as <-. exists v. split; [reflexivity|].
    intros _. clear - Hv. revert v Hv.
    induction (elements b) as [|x l IH]; intros ns H.
    + injection H as <-. reflexivity.
    + apply mapM_Normal_cons in H. destruct H as (y & ys & -> & _ & Hl).
      cbn [List.length]. now rewrite (IH ys Hl).
  - intros [= <-]. exists [0; 0; 0; 0]%float. split; [reflexivity | discriminate].
Qed.

Lemma optionalNumber_Normal_inv (v w : value) :
  optionalNumber v = Normal w -> w = VUndef \/ exists n, w = VNum n.
Proof.
  unfold optionalNumber. destruct (ToBoolean v).
  - intros H. invert_bind H. injection H as <-. eauto.
  - intros [= <-]. now left.
Qed.

(** The object a successful element normalisation builds. *)
Lemma processDetection_Normal (d d' : value) :
  processDetection d = Normal d' ->
  exists bb w1 w2 w3 w4 w5,
    numberArray (field "bbox" d) = Normal bb
    /\ optionalNumber (field "width_px" d) = Normal w1
    /\ optionalNumber (field "height_px" d) = Normal w2
    /\ optionalNumber (field "width_µm" d) = Normal w3
    /\ optionalNumber (field "height_µm" d) = Normal w4
    /\ optionalNumber (field "diagonal_µm" d) = Normal w5
    /\ d' = VObj [ ("confidence", VNum (orZero (numeric (field "confidence" d))));
                   ("bbox", bb);
                   ("label", or (field "label" d) (VStr "Microplastic"));
                   ("width_px", w1); ("height_px", w2); ("width_µm", w3);
                   ("height_µm", w4); ("diagonal_µm", w5);
                   ("size_category", or (field "size_category" d) VUndef) ].
Proof.
  unfold processDetection. intros H. do 16 (invert_bind H). injection H as <-.
  apply get_Normal in Hv, Hv1, Hv3, Hv4, Hv6, Hv8, Hv10, Hv12, Hv14.
  destruct Hv as (-> & _), Hv1 as (-> & _), Hv3 as (-> & _), Hv4 as (-> & _),
           Hv6 as (-> & _), Hv8 as (-> & _), Hv10 as (-> & _),
           Hv12 as (-> & _), Hv14 as (-> & _).
  unfold Number in Hv0. destruct (hidesToString (field "confidence" d));
    [discriminate|]. injection Hv0 as <-.
  exists v2, v5, v7, v9, v11, v13. repeat split; assumption.
Qed.

Lemma ToBoolean_or_truthy (a b : value) : ToBoolean b = true -> ToBoolean (or a b) = true.
Proof. unfold or. intros Hb. now destruct (ToBoolean a) eqn:Ha. Qed.

Lemma processDetection_normalised (d d' : value) :
  processDetection d = Normal d' -> normalisedDetection d'.
Proof.
  intros H. apply processDetection_Normal in H.
  destruct H as (bb & w1 & w2 & w3 & w4 & w5 & Hbb & H1 & H2 & H3 & H4 & H5 & ->).
  apply numberArray_Normal_inv in Hbb. destruct Hbb as (ns & -> & _).
  apply optionalNumber_Normal_inv in H1, H2, H3, H4, H5.
  unfold normalisedDetection.
  split; [eexists; split; [reflexivity | apply orZero_not_NaN]|].
  split; [now exists ns|].
  split; [now apply (ToBoolean_or_truthy (field "label" d))|].
  split.
  - unfold measurements.
    repeat (constructor; [cbn [field lookup String.eqb Ascii.eqb Bool.eqb]; assumption|]).
    constructor.
  - cbn [field lookup String.eqb Ascii.eqb Bool.eqb].
    unfold or. destruct (ToBoolean (field "size_category" d)) eqn:Hs;
      [now right | now left].
Qed.

Lemma mapM_Forall {A B} (f : A -> completion B) (P : B -> Prop) (l : list A) (l' : list B) :
  (forall x y, f x = Normal y -> P y) ->
  mapM f l = Normal l' -> Forall P l' /\ List.length l' = List.length l.
Proof.
  intros HP. revert l'. induction l as [|x l IH]; intros l' H.
  - injection H as <-. now split.
  - apply mapM_Normal_cons in H. destruct H as (y & ys & -> & Hy & Hl).
    destruct (IH ys Hl) as [HF Hlen]. split.
    + constructor; [now apply (HP x) | exact HF].
    + cbn [List.length]. now rewrite Hlen.
Qed.

Lemma processedResult_detections (t : string) (data r : value) :
  processedResult t data = Normal r ->
  exists ds,
    field "detections" r = VArr ds
    /\ Forall normalisedDetection ds
    /\ List.length ds = List.length (elements (field "detections" data))
    /\ field "timestamp" r = VStr t.
Proof.
  intros H. apply processedResult_Normal in H. destruct H as (ds & Hds & ->).
  exists ds. split; [reflexivity|].
  destruct (isArray (field "detections" data)) eqn:Harr.
  - destruct (mapM_Forall processDetection normalisedDetection _ _
                processDetection_normalised Hds) as [HF Hlen].
    repeat split; assumption.
  - injection Hds as <-.
    destruct (field "detections" data); try discriminate; repeat split; constructor.
Qed.

Lemma mapM_Forall2 {A B} (f : A -> completion B) (l : list A) (l' : list B) :
  mapM f l = Normal l' -> Forall2 (fun x y => f x = Normal y) l l'.
Proof.
  revert l'. induction l as [|x l IH]; intros l' H.
  - injection H as <-. constructor.
  - apply mapM_Normal_cons in H. destruct H as (y & ys & -> & Hy & Hl).
    constructor; [exact Hy | now apply IH].
Qed.

(** Whatever the response, a result that is normalised has one
    detection per element of the raw array, each the normalisation of
    the element at its position, and in each the confidence is a number
    other than [NaN], the box is an array of numbers, the label is
    truthy and the measurements are numbers or [undefined]; the
    timestamp is the clock reading, not the upstream value. *)
Theorem normalised_result_is_typed (t : string) (data r : value) :
  processedResult t data = Normal r ->
  exists ds,
    field "detections" r = VArr ds
    /\ Forall normalisedDetection ds
    /\ List.length ds = List.length (elements (field "detections" data))
    /\ field "timestamp" r = VStr t
    /\ (isArray (field "detections" data) = true ->
        Forall2 (fun d d' => processDetection d = Normal d')
                (elements (field "detections" data)) ds).
Proof.
  intros H.
  destruct (processedResult_detections _ _ _ H) as (ds & Hd & HF & Hlen & Ht).
  exists ds. repeat split; try assumption.
  intros Harr. apply processedResult_Normal in H. destruct H as (ds' & Hds & ->).
  rewrite Harr in Hds. change (VArr ds' = VArr ds) in Hd. injection Hd as <-.
  now apply mapM_Forall2.
Qed.

(** Witness of [normalised_result_is_typed]. *)
Lemma normalised_result_is_typed_witness :
  exists r ds,
    processedResult "2025-01-01T10:00:00.000Z" numericLabelResponse = Normal r
    /\ field "detections" r = VArr ds
    /\ Forall normalisedDetection ds
    /\ List.length ds = 1%nat.
Proof.
  eexists.
  assert (H : processedResult "2025-01-01T10:00:00.000Z" numericLabelResponse
              = Normal _) by (vm_compute; reflexivity).
  destruct (normalised_result_is_typed _ _ _ H) as (ds & Hd & HF & Hlen & _).
  exists ds. repeat split; assumption.
Defined.




(** The label is not coerced: a raw label that is truthy but not a
    string is kept as it is, and the size test of the overlay and of the
    details list then throws on it ([toLowerCase] is not a method of such
    a value); for every other raw label the test does not throw. *)
Theorem showsSize_throws_on_non_string_label (d d' : value) :
  processDetection d = Normal d' ->
  (showsSize d' = Throw TypeError
   <-> ToBoolean (field "label" d) = true
       /\ forall s, field "label" d <> VStr s).
Proof.
  intros H. apply processDetection_Normal in H.
  destruct H as (bb & w1 & w2 & w3 & w4 & w5 & _ & _ & _ & _ & _ & _ & ->).
  unfold showsSize. read_fields. unfold or.
  destruct (ToBoolean (field "label" d)) eqn:Hl.
  - destruct (field "label" d) as [| | b | n | s | elems | props] eqn:El;
      cbn [toLowerCaseOf bind]; try discriminate Hl.
    + split; [intros _; split; [reflexivity | intros s; discriminate] | intros _; reflexivity].
    + split; [intros _; split; [reflexivity | intros s; discriminate] | intros _; reflexivity].
    + split.
      * destruct (String.eqb (toLowerCase s) "microplastic"); read_fields; discriminate.
      * intros [_ Hs]. now destruct (Hs s).
    + split; [intros _; split; [reflexivity | intros s; discriminate] | intros _; reflexivity].
    + split; [intros _; split; [reflexivity | intros s; discriminate] | intros _; reflexivity].
  - cbn [toLowerCaseOf bind toLowerCase lowerChar].
    split; [|intros [Hc _]; discriminate Hc].
    destruct (String.eqb _ "microplastic"); read_fields; discriminate.
Qed.

(** Witness of [showsSize_throws_on_non_string_label]: the label 7. *)
Lemma showsSize_throws_on_non_string_label_witness :
  exists d',
    processDetection (VObj [("confidence", VNum 0.9); ("label", VNum 7)]) = Normal d'
    /\ field "label" d' = VNum 7
    /\ showsSize d' = Throw TypeError.
Proof.
  eexists.
  assert (H : processDetection (VObj [("confidence", VNum 0.9); ("label", VNum 7)])
              = Normal _) by (vm_compute; reflexivity).
  split; [exact H|]. split; [reflexivity|].
  apply (proj2 (showsSize_throws_on_non_string_label _ _ H)).
  split; [reflexivity | discriminate].
Defined.

(* ===================================================================== *)
(** * Normalised or absolute boxes *)
(* ===================================================================== *)

Lemma SFcompare_antisym (a b : spec_float) :
  SFcompare b a = option_map CompOpp (SFcompare a b).
Proof.
  destruct a as [sa|sa| |sa ma ea], b as [sb|sb| |sb mb eb];
    try reflexivity;
    try (destruct sa; reflexivity); try (destruct sb; reflexivity);
    try (destruct sa, sb; reflexivity).
  cbn [SFcompare option_map]. f_equal.
  rewrite (Z.compare_antisym ea eb).
  pose proof (Pos.compare_cont_antisym ma mb Eq) as Hm. cbn [CompOpp] in Hm.
  destruct sa, sb; try reflexivity;
    destruct (ea ?= eb)%Z; cbn [CompOpp]; try reflexivity.
  - rewrite <- Hm. now rewrite CompOpp_involutive.
  - now rewrite <- Hm.
Qed.

Lemma isNaN_Prim2SF (x : float) : isNaN x = false -> Prim2SF x <> S754_nan.
Proof.
  unfold isNaN. rewrite FloatAxioms.eqb_spec. intros H E. rewrite E in H.
  discriminate H.
Qed.

(** On numbers other than [NaN], [a <= b] fails exactly when [b < a]. *)
Lemma leb_negb_ltb (a b : float) :
  isNaN a = false -> isNaN b = false -> (a <=? b)%float = negb (b <? a)%float.
Proof.
  intros Ha Hb. apply isNaN_Prim2SF in Ha, Hb.
  rewrite leb_spec, ltb_spec. unfold SFleb, SFltb.
  rewrite (SFcompare_antisym (Prim2SF a) (Prim2SF b)).
  destruct (Prim2SF a) as [sa|sa| |sa ma ea]; try contradiction;
    destruct (Prim2SF b) as [sb|sb| |sb mb eb]; try contradiction;
    destruct (SFcompare _ _) as [[| |]|] eqn:E; try reflexivity;
    discriminate E.
Qed.

Lemma parseBbox_numberBox (raw : value) (box : Box) :
  parseBbox raw = Normal box -> numberBox box = true.
Proof.
  unfold parseBbox. destruct (malformedBbox raw); [now intros [= <-]|].
  intros H. do 4 (invert_bind H). injection H as <-.
  cbn [numberBox]. now rewrite !orZero_not_NaN.
Qed.

(** For a box that [parseBbox] returned, the overlay code treats it as
    absolute pixels exactly when one of its components is greater than 1,
    and as fractions of the image otherwise; no component is [NaN], so
    the two tests are complementary. *)
Theorem absolute_iff_component_above_one (raw : value) (box : Box) :
  parseBbox raw = Normal box ->
  (isNormalized box = false
   <-> exists i, (i < 4)%nat /\ (1 <? component box i)%float = true).
Proof.
  intros H. apply parseBbox_numberBox in H.
  destruct box as [[[x y] w] h]. cbn [numberBox] in H.
  rewrite !andb_true_iff, !negb_true_iff in H.
  destruct H as [[[Hx Hy] Hw] Hh].
  assert (H1 : isNaN 1 = false) by reflexivity.
  cbn [isNormalized].
  rewrite (leb_negb_ltb x 1 Hx H1), (leb_negb_ltb y 1 Hy H1),
          (leb_negb_ltb w 1 Hw H1), (leb_negb_ltb h 1 Hh H1).
  split.
  - intros Hn.
    destruct (1 <? x)%float eqn:Ex; [exists 0%nat; split; [lia | exact Ex]|].
    destruct (1 <? y)%float eqn:Ey; [exists 1%nat; split; [lia | exact Ey]|].
    destruct (1 <? w)%float eqn:Ew; [exists 2%nat; split; [lia | exact Ew]|].
    destruct (1 <? h)%float eqn:Eh; [exists 3%nat; split; [lia | exact Eh]|].
    discriminate Hn.
  - intros (i & Hi & Hgt).
    destruct i as [|[|[|[|i]]]]; try lia; cbn [component] in Hgt; rewrite Hgt;
      cbn [negb andb]; rewrite ?andb_false_r; reflexivity.
Qed.

(** Witness of [absolute_iff_component_above_one]: a pixel box. *)
Lemma absolute_iff_component_above_one_witness :
  parseBbox (VArr [VNum 0.5; VNum 0.5; VNum 120; VNum 0.25])
  = Normal (0.5, 0.5, 120, 0.25)%float
  /\ isNormalized (0.5, 0.5, 120, 0.25)%float = false.
Proof.
  assert (H : parseBbox (VArr [VNum 0.5; VNum 0.5; VNum 120; VNum 0.25])
              = Normal (0.5, 0.5, 120, 0.25)%float) by reflexivity.
  split; [exact H|].
  apply (proj2 (absolute_iff_component_above_one _ _ H)).
  exists 2%nat. split; [lia | reflexivity].
Defined.

(* ===================================================================== *)
(** * An image without size *)
(* ===================================================================== *)

Lemma is_finite_Prim2SF (x : float) :
  is_finite x = match Prim2SF x with
                | S754_zero _ | S754_finite _ _ _ => true
                | _ => false
                end.
Proof.
  unfold is_finite, is_nan, is_infinity.
  rewrite !FloatAxioms.eqb_spec, abs_spec.
  change (Prim2SF infinity) with (S754_infinity false).
  destruct (Prim2SF x) as [s|s| |s m e]; try reflexivity;
    try (now destruct s).
  unfold SFeqb. destruct s; cbn [SFabs SFcompare];
    rewrite Z.compare_refl, Pos.compare_cont_refl; reflexivity.
Qed.

(** [(x * 0) / 0 * 100] is [NaN] and [x / 0 * 100] is [NaN] or
    infinite. *)
Lemma percentage_of_zero_size (x : float) :
  is_finite (x * 0 / 0 * 100)%float = false
  /\ is_finite (x / 0 * 100)%float = false.
Proof.
  rewrite !is_finite_Prim2SF, !mul_spec, !div_spec, !mul_spec.
  change (Prim2SF 0) with (S754_zero false).
  unfold SF64mul, SF64div.
  destruct (Prim2SF x) as [s|s| |s m e]; split; reflexivity.
Qed.

(** The overlay code divides by the natural size of the image as soon
    as it is known: for an image whose natural width and height are 0, no
    percentage of any box is a finite number. *)
Theorem zero_size_image_has_no_finite_overlay (box : Box) (i : nat) :
  (i < 4)%nat ->
  is_finite (component (percentages box (0, 0)%float) i) = false.
Proof.
  intros Hi. destruct box as [[[x y] w] h]. unfold percentages.
  destruct (isNormalized (x, y, w, h));
    destruct i as [|[|[|[|i]]]]; try lia; cbn [component];
    apply percentage_of_zero_size.
Qed.

(** Witness of [zero_size_image_has_no_finite_overlay]. *)
Lemma zero_size_image_has_no_finite_overlay_witness :
  (0 < 4)%nat
  /\ is_finite (component (percentages (0.1, 0.2, 0.3, 0.4)%float (0, 0)%float) 0)
     = false.
Proof.
  split; [lia|].
  apply (zero_size_image_has_no_finite_overlay (0.1, 0.2, 0.3, 0.4)%float 0).
  lia.
Defined.

(* ===================================================================== *)
(** * When [parseBbox] throws *)
(* ===================================================================== *)

(** [parseBbox] throws exactly when its argument is an array of at
    least four elements and the conversion of one of the first four
    throws; on everything else it returns. *)
Theorem parseBbox_throws_iff (raw : value) :
  parseBbox raw = Throw TypeError
  <-> malformedBbox raw = false
      /\ existsb hidesToString (firstn 4 (elements raw)) = true.
Proof.
  unfold parseBbox. destruct (malformedBbox raw) eqn:Hm.
  - split; [discriminate | intros [H _]; discriminate H].
  - destruct (malformedBbox_false raw Hm) as (e0 & e1 & e2 & e3 & rest & ->).
    cbn [elements index nth firstn existsb]. unfold Number.
    destruct (hidesToString e0), (hidesToString e1),
             (hidesToString e2), (hidesToString e3);
      cbn [bind orb]; split; try reflexivity; try discriminate;
      try (intros _; split; reflexivity); intros [_ H]; discriminate H.
Qed.

(* ===================================================================== *)
(** * A response that arrives late, and saving without a result *)
(* ===================================================================== *)

(** "New Scan" pressed while a request is in flight does not cancel it:
    when the response arrives it is displayed although the image is gone
    and the mode is back to camera. *)
Theorem late_response_is_displayed_after_reset (st : State) (data r : value)
    (iso : string) :
  processedResult iso data = Normal r ->
  result (state (sendToBackendSettle (image st) (Resolved data) iso
                   (reset (sendToBackendStart st)))) = Some r
  /\ image (state (sendToBackendSettle (image st) (Resolved data) iso
                     (reset (sendToBackendStart st)))) = None
  /\ mode (state (sendToBackendSettle (image st) (Resolved data) iso
                    (reset (sendToBackendStart st)))) = camera
  /\ loading (state (sendToBackendSettle (image st) (Resolved data) iso
                       (reset (sendToBackendStart st)))) = false.
Proof.
  intros Hr. unfold sendToBackendSettle. rewrite Hr. repeat split.
Qed.

(** Witness of [late_response_is_displayed_after_reset]. *)
Lemma late_response_is_displayed_after_reset_witness :
  exists r,
    processedResult "2025-01-01T10:00:00.000Z" miscountResponse = Normal r
    /\ result (state (sendToBackendSettle (image galleryState)
                        (Resolved miscountResponse) "2025-01-01T10:00:00.000Z"
                        (reset (sendToBackendStart galleryState)))) = Some r.
Proof.
  eexists.
  assert (H : processedResult "2025-01-01T10:00:00.000Z" miscountResponse
              = Normal _) by (vm_compute; reflexivity).
  split; [exact H|].
  exact (proj1 (late_response_is_displayed_after_reset galleryState _ _ _ H)).
Defined.

(** "Save to History" needs a displayed result: while a request is in
    flight, after a failed request and after "New Scan" it only reports
    that there is nothing to save and the state is unchanged. *)
Theorem save_without_result_is_refused (st : State) (ms : Z) (clock : Clock)
    (iso : string) :
  saveCurrentResult ms clock (sendToBackendStart st)
  = (sendToBackendStart st, ["No result to save!"])
  /\ saveCurrentResult ms clock (state (sendToBackend Rejected iso st))
     = (state (sendToBackend Rejected iso st), ["No result to save!"])
  /\ saveCurrentResult ms clock (reset st) = (reset st, ["No result to save!"]).
Proof. repeat split. Qed.

(* ===================================================================== *)
(** * Reloading twice *)
(* ===================================================================== *)

Lemma revive_idempotent (item : HistoryItem.t) : revive (revive item) = revive item.
Proof.
  unfold revive. cbn. now rewrite jsonRoundTrip_idempotent.
Qed.

Lemma storage_mount (slot : option (list HistoryItem.t)) :
  storage (mount slot)
  = match slot with
    | Some [] => Some []
    | Some h => Some (map revive h)
    | None => None
    end.
Proof.
  unfold mount, loadHistory. cbn [storage setStorage].
  destruct slot as [[|x h]|]; try reflexivity.
Qed.

(** What a reload reads back is stable: the history after two reloads in
    a row is the history after one, entry for entry, although the first
    reload may already differ from what was in memory ([NaN] and
    [undefined] do not survive the serialisation). *)
Theorem reload_is_idempotent (st : State) :
  history (reload (reload st)) = history (reload st)
  /\ storage (reload (reload st)) = storage (reload st).
Proof.
  unfold reload. rewrite !history_mount, !storage_mount.
  destruct (storage st) as [[|x h]|]; try (split; reflexivity).
  cbn [map]. rewrite revive_idempotent, map_map.
  rewrite (map_ext (fun y => revive (revive y)) revive revive_idempotent).
  split; reflexivity.
Qed.

(** Witness of [parseBbox_throws_iff]: an object with an own property
    [toString] among the first four components. *)
Lemma parseBbox_throws_iff_witness :
  malformedBbox (VArr [VNum 1; VObj [("toString", VNull)]; VNum 3; VNum 4]) = false
  /\ parseBbox (VArr [VNum 1; VObj [("toString", VNull)]; VNum 3; VNum 4])
     = Throw TypeError.
Proof.
  split; [reflexivity|].
  apply (proj2 (parseBbox_throws_iff _)). split; reflexivity.
Defined.

(* ===================================================================== *)
(** * Cells that format numbers *)
(* ===================================================================== *)

Lemma toFixed_isNumber (v : value) :
  (exists n, toFixed v = Normal n) <-> isNumber v = true.
Proof.
  destruct v; cbn; split; intros H; try discriminate; eauto;
    destruct H as [? H]; discriminate H.
Qed.

Lemma toFixed_Throw (v : value) : isNumber v = false -> toFixed v = Throw TypeError.
Proof. now destruct v. Qed.

Lemma toFixed_Normal (v : value) :
  isNumber v = true -> exists n, toFixed v = Normal n.
Proof. apply toFixed_isNumber. Qed.

Lemma getOptional_field (v : value) (k : string) :
  v <> VUndef -> v <> VNull -> getOptional v k = Normal (field k v).
Proof.
  intros Hu Hn. destruct v; try contradiction; try reflexivity;
    now apply get_field.
Qed.

Lemma calibrationField_field (r info : value) (k : string) :
  r <> VUndef -> r <> VNull ->
  field "calibration_info" r = info -> ToBoolean info = true ->
  calibrationField r k = Normal (field k info).
Proof.
  intros Hu Hn Hinfo Ht. unfold calibrationField.
  rewrite (get_field r _ Hu Hn), Hinfo. cbn [bind].
  apply get_field; intros ->; discriminate Ht.
Qed.

Lemma calibrationPanel_truthy (r info : value) :
  r <> VUndef -> r <> VNull ->
  field "calibration_info" r = info -> ToBoolean info = true ->
  if showableCalibration info
  then exists shown, calibrationPanel r = Normal (Some shown)
  else calibrationPanel r = Throw TypeError.
Proof.
  intros Hu Hn Hinfo Ht. unfold calibrationPanel, showableCalibration.
  rewrite (getOptional_field r _ Hu Hn), Hinfo. cbn [bind]. rewrite Ht.
  rewrite !(calibrationField_field r info _ Hu Hn Hinfo Ht). cbn [bind].
  destruct (isNumber (field "microns_per_pixel" info)) eqn:H1;
    [|now rewrite (toFixed_Throw _ H1)].
  destruct (toFixed_Normal _ H1) as (n1 & ->). cbn [bind andb].
  unfold elementAt.
  destruct (getIndex (field "field_of_view_µm" info) 0) as [x0|[]] eqn:G0;
    [|reflexivity].
  cbn [bind].
  destruct (isNumber x0) eqn:H2; [|now rewrite (toFixed_Throw _ H2)].
  destruct (toFixed_Normal _ H2) as (n2 & ->). cbn [bind andb].
  destruct (getIndex (field "field_of_view_µm" info) 1) as [x1|] eqn:G1.
  - cbn [bind]. destruct (isNumber x1) eqn:H3; [|now rewrite (toFixed_Throw _ H3)].
    destruct (toFixed_Normal _ H3) as (n3 & ->). cbn [bind]. eauto.
  - exfalso. destruct (field "field_of_view_µm" info) as [| | | | |elems|props];
      cbn [getIndex] in G0, G1; try discriminate.
    + destruct (String.get 1 s); discriminate.
    + destruct (lookup (toString (Z.of_nat 1)) props); discriminate.
Qed.

(** The normalisation passes [calibration_info] through unchecked, and
    the calibration panel formats its fields without a test: for a
    normalised result the panel is hidden when the raw record is falsy,
    and otherwise it throws unless [microns_per_pixel] and the first two
    elements of [field_of_view_µm] are numbers. *)
Theorem calibration_panel_of_normalised_result (t : string) (data r : value) :
  processedResult t data = Normal r ->
  field "calibration_info" r = field "calibration_info" data
  /\ (ToBoolean (field "calibration_info" data) = false ->
      calibrationPanel r = Normal None)
  /\ (ToBoolean (field "calibration_info" data) = true ->
      (calibrationPanel r = Throw TypeError
       <-> showableCalibration (field "calibration_info" data) = false)).
Proof.
  intros H. apply processedResult_Normal in H. destruct H as (ds & _ & ->).
  set (r := VObj _).
  assert (Hinfo : field "calibration_info" r = field "calibration_info" data)
    by reflexivity.
  split; [exact Hinfo|]. split.
  - intros Hf. unfold calibrationPanel.
    rewrite (getOptional_field r _ ltac:(discriminate) ltac:(discriminate)), Hinfo.
    cbn [bind]. now rewrite Hf.
  - intros Ht.
    pose proof (calibrationPanel_truthy r _ ltac:(discriminate) ltac:(discriminate)
                  Hinfo Ht) as Hp.
    destruct (showableCalibration (field "calibration_info" data)).
    + destruct Hp as (shown & ->). split; discriminate.
    + split; [reflexivity | intros _; exact Hp].
Qed.

(** Witness of [calibration_panel_of_normalised_result]: an empty
    calibration record. *)
Lemma calibration_panel_of_normalised_result_witness :
  exists r,
    processedResult "2025-01-01T10:00:00.000Z" emptyCalibrationResponse = Normal r
    /\ ToBoolean (field "calibration_info" emptyCalibrationResponse) = true
    /\ calibrationPanel r = Throw TypeError.
Proof.
  eexists.
  assert (H : processedResult "2025-01-01T10:00:00.000Z" emptyCalibrationResponse
              = Normal _) by (vm_compute; reflexivity).
  split; [exact H|]. split; [reflexivity|].
  apply (proj2 (proj2 (calibration_panel_of_normalised_result _ _ _ H)) eq_refl).
  reflexivity.
Defined.

Lemma csvBboxCells_numbers (d : value) (ns : list float) :
  d <> VUndef -> d <> VNull ->
  field "bbox" d = VArr (map VNum ns) ->
  if (List.length ns <? 4)%nat
  then csvBboxCells d = Throw TypeError
  else exists cells, csvBboxCells d = Normal cells.
Proof.
  intros Hu Hn Hb. unfold csvBboxCells.
  destruct ns as [|a [|b [|c [|e rest]]]]; cbn [List.length Nat.ltb Nat.leb];
    repeat (rewrite (get_field d _ Hu Hn), Hb;
            cbn [bind getIndex index nth map toFixed]);
    try reflexivity; eauto.
Qed.

(** The CSV export formats the first four elements of each box without
    going through [parseBbox]: for a normalised detection whose raw box
    was an array of fewer than four elements the box cells throw, where
    the overlay falls back to (0,0,0,0); for every other normalised
    detection they are computed. *)
Theorem csv_box_cells_need_four_numbers (d d' : value) :
  processDetection d = Normal d' ->
  (csvBboxCells d' = Throw TypeError
   <-> isArray (field "bbox" d) = true
       /\ (List.length (elements (field "bbox" d)) < 4)%nat)
  /\ (isArray (field "bbox" d) = true ->
      (List.length (elements (field "bbox" d)) < 4)%nat ->
      parseBbox (field "bbox" d') = Normal zeroBox).
Proof.
  intros H. apply processDetection_Normal in H.
  destruct H as (bb & w1 & w2 & w3 & w4 & w5 & Hbb & _ & _ & _ & _ & _ & ->).
  set (d' := VObj _).
  assert (Hfield : field "bbox" d' = bb) by reflexivity.
  destruct (numberArray_Normal_inv _ _ Hbb) as (ns & -> & Hlen).
  pose proof (csvBboxCells_numbers d' ns ltac:(discriminate) ltac:(discriminate)
                Hfield) as Hcells.
  destruct (isArray (field "bbox" d)) eqn:Harr.
  - rewrite <- (Hlen eq_refl). split.
    + destruct (Nat.ltb_spec (List.length ns) 4) as [Hlt|Hge].
      * split; [intros _; split; [reflexivity | exact Hlt] | intros _; exact Hcells].
      * destruct Hcells as (cells & ->). split; [discriminate | intros [_ Hlt]; lia].
    + intros _ Hlt. rewrite Hfield.
      destruct ns as [|a [|b [|c [|e rest]]]]; try reflexivity.
      cbn [List.length] in Hlt. lia.
  - unfold numberArray in Hbb. rewrite Harr in Hbb.
    assert (Hns : ns = [0; 0; 0; 0]%float).
    { injection Hbb as Hbb.
      destruct ns as [|a [|b [|c [|e [|? ?]]]]]; try discriminate Hbb.
      now injection Hbb as <- <- <- <-. }
    subst ns. cbn [List.length Nat.ltb Nat.leb] in Hcells.
    destruct Hcells as (cells & ->).
    split; [split; [discriminate | intros [Hc _]; discriminate Hc]|].
    intros Hc. discriminate Hc.
Qed.

(** Witness of [csv_box_cells_need_four_numbers]: a box of two
    numbers. *)
Lemma csv_box_cells_need_four_numbers_witness :
  exists d',
    processDetection shortBoxDetection = Normal d'
    /\ csvBboxCells d' = Throw TypeError
    /\ parseBbox (field "bbox" d') = Normal zeroBox.
Proof.
  eexists.
  assert (H : processDetection shortBoxDetection = Normal _)
    by (vm_compute; reflexivity).
  split; [exact H|].
  destruct (csv_box_cells_need_four_numbers _ _ H) as [Hthrow Hzero].
  split.
  - apply (proj2 Hthrow). split; [reflexivity | cbn; lia].
  - apply Hzero; [reflexivity | cbn; lia].
Defined.

(* ===================================================================== *)
(** * The screenshot as a Blob *)
(* ===================================================================== *)

Lemma store_length (i : nat) (x : Z) (arr : list Z) :
  List.length (store i x arr) = List.length arr.
Proof.
  revert i. induction arr as [|y r IH]; intros [|j]; cbn; try reflexivity.
  now rewrite IH.
Qed.

Lemma skipn_store (i : nat) (x : Z) (arr : list Z) :
  (i < List.length arr)%nat ->
  skipn i (store i x arr) = (x mod 256)%Z :: skipn (S i) arr.
Proof.
  revert i. induction arr as [|y r IH]; intros [|j] H; cbn in H |- *; try lia.
  - reflexivity.
  - apply IH. lia.
Qed.

Lemma firstn_snoc_nth (m : nat) (l : list Z) :
  (m < List.length l)%nat -> firstn (S m) l = firstn m l ++ [nth m l 0%Z].
Proof.
  revert m. induction l as [|y r IH]; intros [|j] H; cbn in H |- *; try lia.
  - reflexivity.
  - f_equal. apply IH. lia.
Qed.

Lemma fill_prefix (bstr : list Z) (n : nat) (u8arr : list Z) :
  Forall isByte bstr ->
  List.length u8arr = List.length bstr -> (n <= List.length bstr)%nat ->
  fill bstr n u8arr = firstn n bstr ++ skipn n u8arr.
Proof.
  intros Hb. revert u8arr. induction n as [|m IH]; intros u Hlen Hn.
  - reflexivity.
  - cbn [fill]. rewrite IH by (rewrite ?store_length; lia).
    rewrite skipn_store by lia. rewrite firstn_snoc_nth by lia.
    rewrite <- app_assoc. cbn [app]. do 3 f_equal.
    assert (Hx : isByte (nth m bstr 0%Z)).
    { rewrite Forall_forall in Hb. apply Hb, nth_In. lia. }
    unfold isByte in Hx. apply Z.mod_small. lia.
Qed.

Lemma fill_all (bstr : list Z) :
  Forall isByte bstr ->
  fill bstr (List.length bstr) (repeat 0%Z (List.length bstr)) = bstr.
Proof.
  intros Hb. rewrite fill_prefix; [|assumption|apply repeat_length|lia].
  rewrite firstn_all, skipn_all2 by (rewrite repeat_length; lia).
  apply app_nil_r.
Qed.

Lemma list_ind3 {A} (P : list A -> Prop) :
  P [] -> (forall a, P [a]) -> (forall a b, P [a; b]) ->
  (forall a b c r, P r -> P (a :: b :: c :: r)) ->
  forall l, P l.
Proof.
  intros H0 H1 H2 H3 l.
  assert (H : forall n l, (List.length l <= n)%nat -> P l).
  { clear l. induction n as [|n IH]; intros l Hl.
    - destruct l; [exact H0 | cbn in Hl; lia].
    - destruct l as [|a [|b [|c r]]]; auto.
      apply H3, IH. cbn in Hl. lia. }
  now apply (H (List.length l)).
Qed.

Ltac div_lia := cbv beta zeta in *; Z.div_mod_to_equations; lia.


Lemma base64Char_facts (v : Z) :
  sextet v ->
  base64Value (base64Char v) = Some v
  /\ isAsciiWhitespace (base64Char v) = false
  /\ Ascii.eqb (base64Char v) "=" = false
  /\ Ascii.eqb (base64Char v) "," = false.
Proof.
  intros H. unfold sextet in H.
  assert (E : exists n, (n < 64)%nat /\ v = Z.of_nat n)
    by (exists (Z.to_nat v); lia).
  destruct E as (n & Hn & ->). clear H.
  do 64 (destruct n as [|n]; [vm_compute; repeat split; reflexivity|]).
  lia.
Qed.

Lemma sextets_sextet (bs : list Z) :
  Forall isByte bs -> Forall sextet (sextets bs).
Proof.
  induction bs as [|a|a b|a b c r IH] using list_ind3; intros H; cbn [sextets].
  - constructor.
  - inversion_clear H as [|? ? Ha _]. unfold isByte in Ha.
    repeat (apply Forall_cons; [unfold sextet; div_lia|]); apply Forall_nil.
  - inversion_clear H as [|? ? Ha H']. inversion_clear H' as [|? ? Hb _].
    unfold isByte in Ha, Hb. repeat (apply Forall_cons; [unfold sextet; div_lia|]); apply Forall_nil.
  - inversion_clear H as [|? ? Ha H']. inversion_clear H' as [|? ? Hb H''].
    inversion_clear H'' as [|? ? Hc Hr]. unfold isByte in Ha, Hb, Hc.
    repeat (apply Forall_cons; [unfold sextet; div_lia|]). now apply IH.
Qed.

Lemma decodeSextets_sextets (bs : list Z) :
  Forall isByte bs -> decodeSextets (sextets bs) = bs.
Proof.
  induction bs as [|a|a b|a b c r IH] using list_ind3; intros H;
    cbn [sextets decodeSextets].
  - reflexivity.
  - inversion_clear H as [|? ? Ha _]. unfold isByte in Ha. f_equal. div_lia.
  - inversion_clear H as [|? ? Ha H']. inversion_clear H' as [|? ? Hb _].
    unfold isByte in Ha, Hb. repeat f_equal; div_lia.
  - inversion_clear H as [|? ? Ha H']. inversion_clear H' as [|? ? Hb H''].
    inversion_clear H'' as [|? ? Hc Hr]. unfold isByte in Ha, Hb, Hc.
    rewrite (IH Hr). repeat f_equal; div_lia.
Qed.

Lemma length_sextets (bs : list Z) :
  exists k, (List.length (sextets bs) + List.length (padding bs) = 4 * k)%nat
            /\ (List.length (sextets bs) = 4 * k - List.length (padding bs))%nat
            /\ (List.length (padding bs) <= 2)%nat
            /\ (List.length (padding bs) < 4 * k \/ k = 0)%nat.
Proof.
  induction bs as [|a|a b|a b c r IH] using list_ind3; cbn [sextets padding List.length].
  - exists 0%nat. lia.
  - exists 1%nat. lia.
  - exists 1%nat. lia.
  - destruct IH as (k & ? & ? & ? & ?). exists (S k). lia.
Qed.

Lemma padding_cases (bs : list Z) :
  padding bs = [] \/ padding bs = ["="%char] \/ padding bs = ["="%char; "="%char].
Proof.
  induction bs as [|a|a b|a b c r IH] using list_ind3; cbn [padding]; auto.
Qed.

Lemma removeLastEquals_snoc (l : list ascii) :
  removeLastEquals (l ++ ["="%char]) = l.
Proof.
  unfold removeLastEquals. rewrite rev_app_distr. cbn. apply rev_involutive.
Qed.

Lemma removeLastEquals_none (l : list ascii) :
  Forall (fun c => Ascii.eqb c "=" = false) l -> removeLastEquals l = l.
Proof.
  intros H. unfold removeLastEquals. destruct (rev l) as [|c r] eqn:E; [reflexivity|].
  rewrite Forall_forall in H. rewrite (H c); [reflexivity|].
  apply in_rev. rewrite E. now left.
Qed.

Lemma values_base64Char (vs : list Z) :
  Forall sextet vs -> values (map base64Char vs) = Some vs.
Proof.
  induction 1 as [|v vs Hv _ IH]; [reflexivity|].
  cbn [map values]. rewrite (proj1 (base64Char_facts v Hv)). now rewrite IH.
Qed.

Lemma filter_all {A} (f : A -> bool) (l : list A) :
  Forall (fun x => f x = true) l -> filter f l = l.
Proof.
  induction 1 as [|x l Hx _ IH]; [reflexivity|]. cbn. now rewrite Hx, IH.
Qed.

Lemma atob_base64Encode (bs : list Z) :
  Forall isByte bs -> atob (base64Encode bs) = Some bs.
Proof.
  intros Hb. pose proof (sextets_sextet bs Hb) as Hs.
  unfold atob, base64Encode. rewrite list_ascii_of_string_of_list_ascii.
  assert (Hchars : Forall (fun c => isAsciiWhitespace c = false
                                    /\ Ascii.eqb c "=" = false)
                     (map base64Char (sextets bs))).
  { apply Forall_map. eapply Forall_impl; [|exact Hs].
    intros v Hv. destruct (base64Char_facts v Hv) as (_ & ? & ? & _). now split. }
  rewrite filter_all.
  2:{ apply Forall_app. split.
      - eapply Forall_impl; [|exact Hchars]. cbv beta. now intros c [-> _].
      - destruct (padding_cases bs) as [-> | [-> | ->]]; repeat constructor. }
  assert (Hstrip : stripPadding (map base64Char (sextets bs) ++ padding bs)
                   = map base64Char (sextets bs)).
  { unfold stripPadding. rewrite length_app, length_map.
    destruct (length_sextets bs) as (k & -> & _).
    replace (4 * k)%nat with (k * 4)%nat by lia. rewrite Nat.Div0.mod_mul.
    cbn [Nat.eqb].
    assert (Hnone : removeLastEquals (map base64Char (sextets bs))
                    = map base64Char (sextets bs)).
    { apply removeLastEquals_none. eapply Forall_impl; [|exact Hchars].
      now intros c [_ ?]. }
    destruct (padding_cases bs) as [-> | [-> | ->]].
    - rewrite app_nil_r. now rewrite !Hnone.
    - now rewrite removeLastEquals_snoc.
    - change (map base64Char (sextets bs) ++ ["="%char; "="%char])
        with (map base64Char (sextets bs) ++ ["="%char] ++ ["="%char]).
      rewrite app_assoc. now rewrite !removeLastEquals_snoc. }
  rewrite Hstrip, length_map.
  destruct (length_sextets bs) as (k & _ & Hlen & Hp & Hk).
  assert (Hmod : (List.length (sextets bs) mod 4 =? 1)%nat = false).
  { apply Nat.eqb_neq. intros Hm.
    pose proof (Nat.div_mod_eq (List.length (sextets bs)) 4) as Hd.
    lia. }
  rewrite Hmod, (values_base64Char _ Hs). cbn [option_map].
  now rewrite decodeSextets_sextets.
Qed.

Lemma splitOn_none (sep : ascii) (l : list ascii) :
  Forall (fun c => Ascii.eqb c sep = false) l ->
  splitOn sep (string_of_list_ascii l) = [string_of_list_ascii l].
Proof.
  induction 1 as [|c l Hc _ IH]; [reflexivity|].
  cbn [string_of_list_ascii splitOn]. now rewrite Hc, IH.
Qed.

Lemma splitOn_String (sep c : ascii) (s p : string) (ps : list string) :
  Ascii.eqb c sep = false -> splitOn sep s = p :: ps ->
  splitOn sep (String c s) = String c p :: ps.
Proof. intros Hc Hs. cbn [splitOn]. now rewrite Hc, Hs. Qed.

Lemma plainMime_cons (c : ascii) (m : string) :
  plainMime (String c m) = true ->
  printable c = true /\ Ascii.eqb c ";" = false /\ Ascii.eqb c "," = false
  /\ plainMime m = true.
Proof.
  unfold plainMime. cbn [list_ascii_of_string forallb]. intros H.
  apply andb_prop in H. destruct H as [H Hm].
  apply andb_prop in H. destruct H as [H H3].
  apply andb_prop in H. destruct H as [H1 H2].
  apply negb_true_iff in H2, H3. auto.
Qed.

Lemma splitOn_mime (m rest : string) :
  plainMime m = true ->
  splitOn "," (m ++ ";base64," ++ rest)%string
  = (m ++ ";base64")%string :: splitOn "," rest.
Proof.
  induction m as [|c m IH]; intros H.
  - reflexivity.
  - apply plainMime_cons in H. destruct H as (_ & _ & Hc & Hm).
    specialize (IH Hm). set (tail := (";base64," ++ rest)%string) in *.
    cbn [append splitOn]. now rewrite Hc, IH.
Qed.

Lemma printable_not_terminator (c : ascii) (r : string) :
  printable c = true -> startsWithLineTerminator (String c r) = false.
Proof.
  unfold printable, startsWithLineTerminator. intros H.
  apply andb_prop in H. destruct H as [H1 H2].
  apply N.leb_le in H1, H2.
  replace (code c =? 10)%N with false by (symmetry; apply N.eqb_neq; lia).
  replace (code c =? 13)%N with false by (symmetry; apply N.eqb_neq; lia).
  replace (code c =? 226)%N with false by (symmetry; apply N.eqb_neq; lia).
  reflexivity.
Qed.

Lemma lazyToSemicolon_mime (m rest : string) :
  plainMime m = true ->
  lazyToSemicolon (m ++ String ";" rest)%string = Some m.
Proof.
  induction m as [|c m IH]; intros H.
  - reflexivity.
  - apply plainMime_cons in H. destruct H as (Hp & Hc & _ & Hm).
    cbn [append]. cbn [lazyToSemicolon].
    rewrite Hc, (printable_not_terminator _ _ Hp), (IH Hm). reflexivity.
Qed.

Lemma plainMime_blobType (m : string) :
  plainMime m = true -> blobType m = toLowerCase m.
Proof.
  intros H. unfold blobType.
  replace (forallb printable (list_ascii_of_string m)) with true; [reflexivity|].
  symmetry. induction m as [|c m IH]; [reflexivity|].
  apply plainMime_cons in H. destruct H as (Hp & _ & _ & Hm).
  cbn [list_ascii_of_string forallb]. now rewrite Hp, IH.
Qed.

(** A data URL that names a MIME type and carries the base64 text of a
    byte sequence is converted to the Blob of exactly these bytes, typed
    with the MIME type in lower case. *)
Theorem base64ToBlob_of_data_url (m : string) (bs : list Z) :
  plainMime m = true -> m <> EmptyString -> Forall isByte bs ->
  base64ToBlob (dataURL m bs) = {| content := bs; type := toLowerCase m |}.
Proof.
  intros Hm Hne Hb. unfold base64ToBlob, dataURL.
  assert (Hsplit : splitOn "," ("data:" ++ m ++ ";base64," ++ base64Encode bs)%string
                   = ("data:" ++ m ++ ";base64")%string :: [base64Encode bs]).
  { repeat (apply splitOn_String; [reflexivity|]).
    change (splitOn "," (m ++ ";base64," ++ base64Encode bs)%string
            = (m ++ ";base64")%string :: [base64Encode bs]).
    rewrite (splitOn_mime m _ Hm). unfold base64Encode at 1.
    rewrite splitOn_none; [reflexivity|].
    apply Forall_app. split.
    - apply Forall_map. eapply Forall_impl; [|exact (sextets_sextet bs Hb)].
      intros v Hv. now destruct (base64Char_facts v Hv) as (_ & _ & _ & ?).
    - destruct (padding_cases bs) as [-> | [-> | ->]]; repeat constructor. }
  rewrite Hsplit. cbn [hd nth].
  assert (Hmime : mimeMatch ("data:" ++ m ++ ";base64")%string = Some m).
  { change (mimeMatch (String "d" (String "a" (String "t" (String "a"
              (String ":" (m ++ String ";" "base64")%string))))) = Some m).
    cbn [mimeMatch Ascii.eqb Bool.eqb andb].
    now rewrite (lazyToSemicolon_mime m "base64" Hm). }
  rewrite Hmime, (atob_base64Encode bs Hb).
  destruct m as [|c m]; [contradiction|]. cbn [String.eqb].
  rewrite (plainMime_blobType _ Hm), (fill_all bs Hb). reflexivity.
Qed.

(** Witness of [base64ToBlob_of_data_url]: the first bytes of a JPEG
    file. *)
Lemma base64ToBlob_of_data_url_witness :
  dataURL "image/jpeg" [255; 216; 255; 224; 0]%Z = "data:image/jpeg;base64,/9j/4AA="
  /\ base64ToBlob "data:image/jpeg;base64,/9j/4AA="
     = {| content := [255; 216; 255; 224; 0]%Z; type := "image/jpeg" |}.
Proof.
  split; [reflexivity|].
  apply (base64ToBlob_of_data_url "image/jpeg" [255; 216; 255; 224; 0]%Z).
  - reflexivity.
  - discriminate.
  - repeat constructor; unfold isByte; lia.
Defined.

Lemma splitOn_no_separator (sep : ascii) (s : string) :
  (forall c, In c (list_ascii_of_string s) -> c <> sep) ->
  splitOn sep s = [s].
Proof.
  intros H. rewrite <- (string_of_list_ascii_of_string s).
  apply splitOn_none. rewrite Forall_forall. intros c Hc.
  apply Ascii.eqb_neq. now apply H.
Qed.

Lemma lazyToSemicolon_none (s : string) :
  (forall c, In c (list_ascii_of_string s) -> c <> ";"%char) ->
  lazyToSemicolon s = None.
Proof.
  induction s as [|c s IH]; intros H; [reflexivity|].
  cbn [lazyToSemicolon].
  replace (Ascii.eqb c ";") with false
    by (symmetry; apply Ascii.eqb_neq, H; now left).
  destruct (startsWithLineTerminator (String c s)); [reflexivity|].
  rewrite IH; [reflexivity|]. intros c' Hc'. apply H. now right.
Qed.

Lemma mimeMatch_none (s : string) :
  (forall c, In c (list_ascii_of_string s) -> c <> ";"%char) ->
  mimeMatch s = None.
Proof.
  induction s as [|c s IH]; intros H; [reflexivity|].
  assert (Hs : forall c', In c' (list_ascii_of_string s) -> c' <> ";"%char)
    by (intros c' Hc'; apply H; now right).
  cbn [mimeMatch]. rewrite (lazyToSemicolon_none s Hs), (IH Hs).
  now destruct (Ascii.eqb c ":").
Qed.

(** The fallbacks of the conversion.  A text without a comma has no
    payload: [atob] is given [undefined], throws, and the result is the
    empty Blob without a type.  A header without [;] names no type to the
    match: the Blob, when the payload is decoded, is typed
    [image/jpeg]. *)
Theorem base64ToBlob_fallbacks (base64 : string) :
  ((forall c, In c (list_ascii_of_string base64) -> c <> ","%char) ->
   base64ToBlob base64 = emptyBlob)
  /\ ((forall c, In c (list_ascii_of_string (hd EmptyString (splitOn "," base64))) ->
                 c <> ";"%char) ->
      base64ToBlob base64 = emptyBlob \/ type (base64ToBlob base64) = "image/jpeg").
Proof.
  split.
  - intros H. unfold base64ToBlob. rewrite (splitOn_no_separator _ _ H).
    reflexivity.
  - intros H. unfold base64ToBlob. rewrite (mimeMatch_none _ H).
    destruct (atob _); [right; reflexivity | left; reflexivity].
Qed.

(** Witness of [base64ToBlob_fallbacks]: a text without a comma, and a
    data URL whose header has no parameter. *)
Lemma base64ToBlob_fallbacks_witness :
  base64ToBlob "data:image/png;base64" = emptyBlob
  /\ type (base64ToBlob "data:image/png,AAAA") = "image/jpeg".
Proof.
  split.
  - apply (proj1 (base64ToBlob_fallbacks "data:image/png;base64")).
    intros c Hc. cbn in Hc.
    repeat (destruct Hc as [<- | Hc]; [discriminate|]). contradiction.
  - destruct (proj2 (base64ToBlob_fallbacks "data:image/png,AAAA")) as [H | H].
    + intros c Hc. cbn in Hc.
      repeat (destruct Hc as [<- | Hc]; [discriminate|]). contradiction.
    + discriminate H.
    + exact H.
Defined.
